(** * Google Docs MCP server: the request executor and its nine tool adapters

    A shallow embedding of [src/main.py].  Python values, dictionaries and
    exceptions are modelled explicitly; the process environment, the HTTP
    transport and the built-in [repr] are gathered in a [World] the code is
    run against.  Every tool is a computation in a small state-and-exception
    monad whose state is the log of executor calls and of HTTP requests. *)

From Stdlib Require Import ZArith List String Ascii Bool Lia PrimFloat
  DecimalString.
From Stdlib.Strings Require Import Byte.
Import ListNotations.

Set Warnings "-register-all".

Local Open Scope string_scope.
Local Open Scope Z_scope.

(* ================================================================== *)
(** ** Python values *)

Module Py.

(** The values the code handles: what [response.json()] decodes to, the
    [bytes] of [response.content], and the dictionaries the tools build.
    A [dict] is kept in insertion order, as Python keeps it. *)
Inductive value : Type :=
| VNone
| VBool (b : bool)
| VInt (z : Z)
| VFloat (f : float)
| VStr (s : string)
| VBytes (b : list byte)
| VList (l : list value)
| VDict (d : list (string * value)).

Definition dict : Type := list (string * value).

(** Exceptions.  [HTTPStatusError] is the one class the executor tells apart
    (it carries the response); every other subclass of [Exception] is kept
    as its class name and its [str()]. *)
Record Response : Type := mkResponse {
  status_code : Z;
  headers : list (string * string);
  content : list byte;
  text : string;
  json : value + (string * string)   (* decoded body, or the class and
                                        text of the decoding error *)
}.

Inductive exn : Type :=
| HTTPStatusError (msg : string) (response : Response)
| PyError (cls : string) (msg : string).

Definition exn_str (e : exn) : string :=
  match e with
  | HTTPStatusError msg _ => msg
  | PyError _ msg => msg
  end.

Inductive Res (A : Type) : Type :=
| Ok (a : A)
| Raise (e : exn).
Arguments Ok {A} a.
Arguments Raise {A} e.

(** *** Dictionaries *)

Fixpoint dict_get {A : Type} (d : list (string * A)) (k : string) : option A :=
  match d with
  | [] => None
  | (k', v) :: d' => if String.eqb k' k then Some v else dict_get d' k
  end.

Definition dict_mem {A : Type} (d : list (string * A)) (k : string) : bool :=
  match dict_get d k with Some _ => true | None => false end.

(** [d[k] = v]: overwrite in place, or append a new key at the end. *)
Fixpoint dict_set {A : Type} (d : list (string * A)) (k : string) (v : A)
  : list (string * A) :=
  match d with
  | [] => [(k, v)]
  | (k', v') :: d' =>
      if String.eqb k' k then (k, v) :: d' else (k', v') :: dict_set d' k v
  end.

(** [d.update(other)]. *)
Definition dict_update {A : Type} (d other : list (string * A))
  : list (string * A) :=
  fold_left (fun acc kv => dict_set acc (fst kv) (snd kv)) other d.

Definition dict_keys {A : Type} (d : list (string * A)) : list string :=
  map fst d.

(** *** Strings *)

Definition str_of_Z (z : Z) : string := NilZero.string_of_int (Z.to_int z).

Definition str_of_bool (b : bool) : string := if b then "True" else "False".

Definition ascii_lower (c : ascii) : ascii :=
  let n := N_of_ascii c in
  if (65 <=? n)%N && (n <=? 90)%N then ascii_of_N (n + 32) else c.

(** [s.lower()] on the ASCII letters. *)
Fixpoint lower (s : string) : string :=
  match s with
  | EmptyString => EmptyString
  | String c s' => String (ascii_lower c) (lower s')
  end.

(** [needle in hay] for two strings. *)
Fixpoint str_contains (needle hay : string) : bool :=
  String.prefix needle hay ||
  match hay with
  | EmptyString => false
  | String _ hay' => str_contains needle hay'
  end.

Definition quoted (s : string) : string := "'" ++ s ++ "'".

(** *** Built-ins on values *)

Definition type_name (v : value) : string :=
  match v with
  | VNone => "NoneType"
  | VBool _ => "bool"
  | VInt _ => "int"
  | VFloat _ => "float"
  | VStr _ => "str"
  | VBytes _ => "bytes"
  | VList _ => "list"
  | VDict _ => "dict"
  end.

(** [bool(v)]. *)
Definition truthy (v : value) : bool :=
  match v with
  | VNone => false
  | VBool b => b
  | VInt z => negb (z =? 0)
  | VFloat f => negb (PrimFloat.eqb f PrimFloat.zero)
  | VStr s => negb (String.eqb s "")
  | VBytes b => match b with [] => false | _ => true end
  | VList l => match l with [] => false | _ => true end
  | VDict d => match d with [] => false | _ => true end
  end.

Definition zlen {A : Type} (l : list A) : Z := Z.of_nat (List.length l).

(** [len(v)].  A [str] is measured in the characters of the model's
    [string]; for text outside ASCII held as UTF-8 that is its bytes, where
    Python counts code points. *)
Definition py_len (v : value) : Res Z :=
  match v with
  | VStr s => Ok (Z.of_nat (String.length s))
  | VBytes b => Ok (zlen b)
  | VList l => Ok (zlen l)
  | VDict d => Ok (zlen d)
  | _ => Raise (PyError "TypeError"
                  ("object of type " ++ quoted (type_name v) ++ " has no len()"))
  end.

(** [v.get(k, default)]: only a [dict] has the attribute. *)
Definition py_get (v : value) (k : string) (default : value) : Res value :=
  match v with
  | VDict d => Ok (match dict_get d k with Some x => x | None => default end)
  | _ => Raise (PyError "AttributeError"
                  (quoted (type_name v) ++ " object has no attribute 'get'"))
  end.

(** [v[0]]. *)
Definition py_item0 (v : value) : Res value :=
  match v with
  | VList (x :: _) => Ok x
  | VList [] => Raise (PyError "IndexError" "list index out of range")
  | VStr (String c _) => Ok (VStr (String c EmptyString))
  | VStr EmptyString => Raise (PyError "IndexError" "string index out of range")
  | VBytes (b :: _) => Ok (VInt (Z.of_N (Byte.to_N b)))
  | VBytes [] => Raise (PyError "IndexError" "index out of range")
  | VDict _ => Raise (PyError "KeyError" "0")
  | _ => Raise (PyError "TypeError"
                  (quoted (type_name v) ++ " object is not subscriptable"))
  end.

Definition is_str (k : string) (v : value) : bool :=
  match v with VStr s => String.eqb s k | _ => false end.

(** [k in v] for a string [k]. *)
Definition py_in (k : string) (v : value) : Res bool :=
  match v with
  | VDict d => Ok (dict_mem d k)
  | VList l => Ok (existsb (is_str k) l)
  | VStr s => Ok (str_contains k s)
  | VBytes _ => Raise (PyError "TypeError"
                         "a bytes-like object is required, not 'str'")
  | _ => Raise (PyError "TypeError"
                  ("argument of type " ++ quoted (type_name v)
                   ++ " is not iterable"))
  end.

(** [v[k]] for a string [k]. *)
Definition py_item (v : value) (k : string) : Res value :=
  match v with
  | VDict d =>
      match dict_get d k with
      | Some x => Ok x
      | None => Raise (PyError "KeyError" (quoted k))
      end
  | VList _ => Raise (PyError "TypeError"
                        "list indices must be integers or slices, not str")
  | VStr _ => Raise (PyError "TypeError"
                       "string indices must be integers, not 'str'")
  | VBytes _ => Raise (PyError "TypeError"
                         "byte indices must be integers or slices, not str")
  | _ => Raise (PyError "TypeError"
                  (quoted (type_name v) ++ " object is not subscriptable"))
  end.

Definition is_bytes (v : value) : bool :=
  match v with VBytes _ => true | _ => false end.

End Py.
Export Py.

(* ================================================================== *)
(** ** The world outside the module: environment, HTTP client, [repr] *)

(** What [getattr(client, verb)(url, headers=..., **kwargs)] is called
    with.  The client is always built with [timeout=30.0]. *)
Record Request : Type := mkRequest {
  req_verb : string;
  req_url : string;
  req_headers : list (string * string);
  req_kwargs : dict
}.

(** The log: every call of [make_api_request], and every request handed to
    a verb method of the HTTP client. *)
Inductive Event : Type :=
| ExecutorCall (method url : string) (hdrs : option (list (string * string)))
    (kwargs : dict)
| HttpCall (rq : Request).

Definition Trace : Type := list Event.

(** The client either comes back with a response or raises (connection,
    timeout, protocol, a keyword it does not accept, ...). *)
Inductive Outcome : Type :=
| Responds (r : Response)
| Fails (cls msg : string).

Record World : Type := mkWorld {
  os_getenv : string -> option string;
  (* the remote service and the network, which may depend on what was
     sent before *)
  transport : Trace -> Request -> Outcome;
  (* class and text of the exception raised when the attribute looked up
     on the client is not one of its request verbs *)
  call_fault : Request -> string * string;
  (* the text httpx gives to the [HTTPStatusError] it raises *)
  status_error_text : Response -> string;
  (* the built-in [repr] of floats, bytes, lists and dicts *)
  py_repr : value -> string
}.

(** [str(v)], as an f-string field formats it. *)
Definition py_str (w : World) (v : value) : string :=
  match v with
  | VNone => "None"
  | VBool b => str_of_bool b
  | VInt z => str_of_Z z
  | VStr s => s
  | _ => py_repr w v
  end.

(* ================================================================== *)
(** ** State and exceptions *)

Definition M (A : Type) : Type := Trace -> Res A * Trace.

Definition ret {A : Type} (a : A) : M A := fun tr => (Ok a, tr).

Definition raise {A : Type} (e : exn) : M A := fun tr => (Raise e, tr).

Definition lift {A : Type} (r : Res A) : M A := fun tr => (r, tr).

Definition bind {A B : Type} (m : M A) (k : A -> M B) : M B :=
  fun tr =>
    match m tr with
    | (Ok a, tr') => k a tr'
    | (Raise e, tr') => (Raise e, tr')
    end.

Definition emit (ev : Event) : M unit := fun tr => (Ok tt, (tr ++ [ev])%list).

(** [try: body  except ... as e: handler e].  An exception raised by the
    handler itself is not caught again. *)
Definition try_except {A : Type} (body : M A) (handler : exn -> M A) : M A :=
  fun tr =>
    match body tr with
    | (Ok a, tr') => (Ok a, tr')
    | (Raise e, tr') => handler e tr'
    end.

Notation "x <- c ;; k" := (bind c (fun x => k))
  (at level 61, c at next level, right associativity).
Notation "c ;;; k" := (bind c (fun _ => k))
  (at level 61, right associativity).

(* ================================================================== *)
(** ** Configuration and the authenticated request executor *)

Definition DOCS_API_BASE : string := "https://docs.googleapis.com/v1".
Definition DRIVE_API_BASE : string := "https://www.googleapis.com/drive/v3".

Definition missing_token_message : string :=
  "Missing GOOGLE_ACCESS_TOKEN environment variable. "
  ++ "Please set it in your .env file or environment.".

(** [not token] for the result of [os.getenv]. *)
Definition not_token (token : option string) : bool :=
  match token with
  | None => true
  | Some s => String.eqb s ""
  end.

Definition get_access_token (w : World) : Res string :=
  let token := os_getenv w "GOOGLE_ACCESS_TOKEN" in
  if not_token token
  then Raise (PyError "ValueError" missing_token_message)
  else Ok (match token with Some s => s | None => "" end).

(** The request methods of [httpx.AsyncClient]. *)
Definition request_verbs : list string :=
  ["get"; "options"; "head"; "post"; "put"; "patch"; "delete"].

Definition is_request_verb (attr : string) : bool :=
  existsb (String.eqb attr) request_verbs.

(** [await getattr(client, attr)(url, headers=hdrs, **kwargs)]. *)
Definition client_call (w : World) (attr url : string)
    (hdrs : list (string * string)) (kwargs : dict) : M Response :=
  fun tr =>
    let rq := mkRequest attr url hdrs kwargs in
    if is_request_verb attr then
      match transport w tr rq with
      | Responds r => (Ok r, (tr ++ [HttpCall rq])%list)
      | Fails cls msg => (Raise (PyError cls msg), (tr ++ [HttpCall rq])%list)
      end
    else (Raise (PyError (fst (call_fault w rq)) (snd (call_fault w rq))), tr).

Definition is_success (r : Response) : bool :=
  (200 <=? status_code r) && (status_code r <=? 299).

Definition raise_for_status (w : World) (r : Response) : Res Response :=
  if is_success r then Ok r
  else Raise (HTTPStatusError (status_error_text w r) r).

(** [response.headers.get(name, default)]; header names compare without
    regard to case.  Of several headers of one name the first decides a
    [startswith] test on the joined value. *)
Fixpoint headers_get (h : list (string * string)) (name default : string)
  : string :=
  match h with
  | [] => default
  | (k, v) :: h' =>
      if String.eqb (lower k) (lower name) then v
      else headers_get h' name default
  end.

Definition response_json (r : Response) : Res value :=
  match json r with
  | inl v => Ok v
  | inr (cls, msg) => Raise (PyError cls msg)
  end.

(** [if headers: default_headers.update(headers)]. *)
Definition merge_headers (default_headers : list (string * string))
    (hdrs : option (list (string * string))) : list (string * string) :=
  match hdrs with
  | Some (kv :: more) => dict_update default_headers (kv :: more)
  | _ => default_headers
  end.

Definition make_api_request (w : World) (method url : string)
    (hdrs : option (list (string * string))) (kwargs : dict) : M value :=
  emit (ExecutorCall method url hdrs kwargs) ;;;
  token <- lift (get_access_token w) ;;
  let default_headers :=
    merge_headers [("Authorization", "Bearer " ++ token);
                   ("Content-Type", "application/json")] hdrs in
  try_except
    (response <- client_call w (lower method) url default_headers kwargs ;;
     lift (raise_for_status w response) ;;;
     if String.prefix "application/"
          (headers_get (headers response) "content-type" "")
     then ret (VBytes (content response))
     else lift (response_json response))
    (fun e =>
       match e with
       | HTTPStatusError _ response =>
           raise (PyError "Exception"
                    ("Google API error " ++ str_of_Z (status_code response)
                     ++ ": " ++ text response))
       | _ => raise (PyError "Exception" ("Request failed: " ++ exn_str e))
       end).

(* ================================================================== *)
(** ** The nine tools *)

Definition list_documents (w : World) (max_results : Z) : M dict :=
  try_except
    (let params : dict :=
       [("q", VStr "mimeType='application/vnd.google-apps.document'");
        ("pageSize", VInt (Z.min max_results 1000));
        ("fields",
         VStr "files(id,name,createdTime,modifiedTime,webViewLink,thumbnailLink,owners)")] in
     result <- make_api_request w "GET" (DRIVE_API_BASE ++ "/files") None
                 [("params", VDict params)] ;;
     files <- lift (py_get result "files" (VList [])) ;;
     n <- lift (py_len files) ;;
     ret [("files", files);
          ("count", VInt n);
          ("message",
           VStr ("Successfully listed " ++ str_of_Z n ++ " documents"))])
    (fun e =>
       ret [("error", VStr (exn_str e));
            ("message", VStr "Failed to list documents")]).

Definition get_document (w : World) (document_id : string) : M dict :=
  try_except
    (result <- make_api_request w "GET"
                 (DOCS_API_BASE ++ "/documents/" ++ document_id) None [] ;;
     documentId <- lift (py_get result "documentId" VNone) ;;
     title <- lift (py_get result "title" VNone) ;;
     body <- lift (py_get result "body" VNone) ;;
     title' <- lift (py_get result "title" VNone) ;;
     ret [("documentId", documentId);
          ("title", title);
          ("body", body);
          ("message",
           VStr ("Successfully retrieved document: " ++ py_str w title'))])
    (fun e =>
       ret [("error", VStr (exn_str e));
            ("document_id", VStr document_id);
            ("message",
             VStr ("Failed to retrieve document " ++ document_id))]).

Definition create_document (w : World) (title : string) : M dict :=
  try_except
    (let document_data : dict := [("title", VStr title)] in
     result <- make_api_request w "POST" (DOCS_API_BASE ++ "/documents") None
                 [("json", VDict document_data)] ;;
     doc_id <- lift (py_get result "documentId" VNone) ;;
     drive_info <- make_api_request w "GET"
                     (DRIVE_API_BASE ++ "/files/" ++ py_str w doc_id) None
                     [("params", VDict [("fields", VStr "webViewLink")])] ;;
     title' <- lift (py_get result "title" VNone) ;;
     webViewLink <- lift (py_get drive_info "webViewLink" VNone) ;;
     ret [("documentId", doc_id);
          ("title", title');
          ("webViewLink", webViewLink);
          ("message", VStr ("Successfully created document: " ++ title))])
    (fun e =>
       ret [("error", VStr (exn_str e));
            ("title", VStr title);
            ("message",
             VStr ("Failed to create document '" ++ title ++ "'"))]).

Definition batch_update_url (document_id : string) : string :=
  DOCS_API_BASE ++ "/documents/" ++ document_id ++ ":batchUpdate".

Definition insert_text (w : World) (document_id text : string) (index : Z)
  : M dict :=
  try_except
    (let requests_data : dict :=
       [("requests",
         VList [VDict [("insertText",
                        VDict [("location", VDict [("index", VInt index)]);
                               ("text", VStr text)])]])] in
     result <- make_api_request w "POST" (batch_update_url document_id) None
                 [("json", VDict requests_data)] ;;
     replies <- lift (py_get result "replies" (VList [])) ;;
     ret [("documentId", VStr document_id);
          ("message",
           VStr ("Successfully inserted text at position " ++ str_of_Z index));
          ("replies", replies)])
    (fun e =>
       ret [("error", VStr (exn_str e));
            ("document_id", VStr document_id);
            ("message",
             VStr ("Failed to insert text into document " ++ document_id))]).

(** Lines 318-321: the count of replacements read from the first reply. *)
Definition extract_occurrences (result : value) : Res value :=
  match py_get result "replies" (VList []) with
  | Raise e => Raise e
  | Ok replies =>
      if truthy replies then
        match py_item0 replies with
        | Raise e => Raise e
        | Ok first =>
            match py_in "replaceAllText" first with
            | Raise e => Raise e
            | Ok false => Ok (VInt 0)
            | Ok true =>
                match py_item first "replaceAllText" with
                | Raise e => Raise e
                | Ok rat => py_get rat "occurrencesChanged" (VInt 0)
                end
            end
        end
      else Ok (VInt 0)
  end.

Definition replace_text (w : World) (document_id old_text new_text : string)
  : M dict :=
  try_except
    (let requests_data : dict :=
       [("requests",
         VList [VDict [("replaceAllText",
                        VDict [("containsText",
                                VDict [("text", VStr old_text);
                                       ("matchCase", VBool false)]);
                               ("replaceText", VStr new_text)])]])] in
     result <- make_api_request w "POST" (batch_update_url document_id) None
                 [("json", VDict requests_data)] ;;
     occurrences <- lift (extract_occurrences result) ;;
     ret [("documentId", VStr document_id);
          ("message",
           VStr ("Successfully replaced " ++ py_str w occurrences
                 ++ " occurrence(s) of '" ++ old_text
                 ++ "' with '" ++ new_text ++ "'"));
          ("occurrences_changed", occurrences)])
    (fun e =>
       ret [("error", VStr (exn_str e));
            ("document_id", VStr document_id);
            ("message",
             VStr ("Failed to replace text in document " ++ document_id))]).

(** One [if opt is not None:] block of [format_text]: the style key is set
    and its description appended. *)
Definition add_style (name : string) (opt : option bool)
    (acc : dict * list value) : dict * list value :=
  match opt with
  | Some b =>
      (dict_set (fst acc) name (VBool b),
       (snd acc ++ [VStr (name ++ "=" ++ str_of_bool b)])%list)
  | None => acc
  end.

Definition format_text (w : World) (document_id : string)
    (start_index end_index : Z) (bold italic underline : option bool)
  : M dict :=
  try_except
    (let styles :=
       add_style "underline" underline
         (add_style "italic" italic (add_style "bold" bold ([], []))) in
     let text_style := fst styles in
     let formatting_applied := snd styles in
     match text_style with
     | [] =>
         ret [("error", VStr "No formatting options provided");
              ("document_id", VStr document_id);
              ("message",
               VStr "At least one formatting option (bold, italic, underline) must be specified")]
     | _ =>
         let requests_data : dict :=
           [("requests",
             VList [VDict [("updateTextStyle",
                            VDict [("range",
                                    VDict [("startIndex", VInt start_index);
                                           ("endIndex", VInt end_index)]);
                                   ("textStyle", VDict text_style);
                                   ("fields",
                                    VStr (String.concat ","
                                            (dict_keys text_style)))])]])] in
         make_api_request w "POST" (batch_update_url document_id) None
           [("json", VDict requests_data)] ;;;
         ret [("documentId", VStr document_id);
              ("message",
               VStr ("Successfully formatted text from index "
                     ++ str_of_Z start_index ++ " to " ++ str_of_Z end_index));
              ("formatting_applied", VList formatting_applied)]
     end)
    (fun e =>
       ret [("error", VStr (exn_str e));
            ("document_id", VStr document_id);
            ("message",
             VStr ("Failed to format text in document " ++ document_id))]).

Definition insert_image (w : World) (document_id image_url : string)
    (index : Z) : M dict :=
  try_except
    (let requests_data : dict :=
       [("requests",
         VList [VDict [("insertInlineImage",
                        VDict [("location", VDict [("index", VInt index)]);
                               ("uri", VStr image_url)])]])] in
     make_api_request w "POST" (batch_update_url document_id) None
       [("json", VDict requests_data)] ;;;
     ret [("documentId", VStr document_id);
          ("message",
           VStr ("Successfully inserted image at position "
                 ++ str_of_Z index));
          ("image_url", VStr image_url)])
    (fun e =>
       ret [("error", VStr (exn_str e));
            ("document_id", VStr document_id);
            ("message",
             VStr ("Failed to insert image into document " ++ document_id))]).

(** The export format table of [export_document]. *)
Definition mime_types : list (string * string) :=
  [("pdf", "application/pdf");
   ("docx",
    "application/vnd.openxmlformats-officedocument.wordprocessingml.document");
   ("odt", "application/vnd.oasis.opendocument.text");
   ("rtf", "application/rtf");
   ("txt", "text/plain");
   ("html", "text/html");
   ("epub", "application/epub+zip")].

(** [len(content) if isinstance(content, bytes) else 0]. *)
Definition content_length_of (content : value) : Z :=
  match content with
  | VBytes b => zlen b
  | _ => 0
  end.

Definition export_document (w : World) (document_id export_format : string)
  : M dict :=
  try_except
    (match dict_get mime_types export_format with
     | None =>
         ret [("error", VStr ("Unsupported export format: " ++ export_format));
              ("supported_formats", VList (map VStr (dict_keys mime_types)));
              ("message",
               VStr ("Format '" ++ export_format ++ "' is not supported"))]
     | Some mime_type =>
         content <- make_api_request w "GET"
                      (DRIVE_API_BASE ++ "/files/" ++ document_id ++ "/export")
                      None [("params", VDict [("mimeType", VStr mime_type)])] ;;
         let content_length := content_length_of content in
         ret [("documentId", VStr document_id);
              ("format", VStr export_format);
              ("content_length", VInt content_length);
              ("message",
               VStr ("Successfully exported document as " ++ export_format
                     ++ " (" ++ str_of_Z content_length ++ " bytes)"));
              ("download_info",
               VStr "Export completed. Content available via Google Drive API.")]
     end)
    (fun e =>
       ret [("error", VStr (exn_str e));
            ("document_id", VStr document_id);
            ("message",
             VStr ("Failed to export document " ++ document_id))]).

Definition delete_document (w : World) (document_id : string) : M dict :=
  try_except
    (make_api_request w "DELETE" (DRIVE_API_BASE ++ "/files/" ++ document_id)
       None [] ;;;
     ret [("documentId", VStr document_id);
          ("message",
           VStr ("Successfully deleted document " ++ document_id))])
    (fun e =>
       ret [("error", VStr (exn_str e));
            ("document_id", VStr document_id);
            ("message",
             VStr ("Failed to delete document " ++ document_id))]).

(* ================================================================== *)
(** ** The tool surface *)

(** A tool invocation: the tool's name with its arguments. *)
Inductive ToolCall : Type :=
| ListDocuments (max_results : Z)
| GetDocument (document_id : string)
| CreateDocument (title : string)
| InsertText (document_id text : string) (index : Z)
| ReplaceText (document_id old_text new_text : string)
| FormatText (document_id : string) (start_index end_index : Z)
    (bold italic underline : option bool)
| InsertImage (document_id image_url : string) (index : Z)
| ExportDocument (document_id export_format : string)
| DeleteDocument (document_id : string).

Definition invoke (w : World) (c : ToolCall) : M dict :=
  match c with
  | ListDocuments n => list_documents w n
  | GetDocument d => get_document w d
  | CreateDocument t => create_document w t
  | InsertText d t i => insert_text w d t i
  | ReplaceText d o n => replace_text w d o n
  | FormatText d s e b i u => format_text w d s e b i u
  | InsertImage d u i => insert_image w d u i
  | ExportDocument d f => export_document w d f
  | DeleteDocument d => delete_document w d
  end.

(** The fields every success envelope of a tool carries beside [message]
    (the keys of the dictionary its [try] block returns). *)
Definition success_fields (c : ToolCall) : list string :=
  match c with
  | ListDocuments _ => ["files"; "count"]
  | GetDocument _ => ["documentId"; "title"; "body"]
  | CreateDocument _ => ["documentId"; "title"; "webViewLink"]
  | InsertText _ _ _ => ["documentId"; "replies"]
  | ReplaceText _ _ _ => ["documentId"; "occurrences_changed"]
  | FormatText _ _ _ _ _ _ => ["documentId"; "formatting_applied"]
  | InsertImage _ _ _ => ["documentId"; "image_url"]
  | ExportDocument _ _ =>
      ["documentId"; "format"; "content_length"; "download_info"]
  | DeleteDocument _ => ["documentId"]
  end.

Definition has_success_fields (c : ToolCall) (env : dict) : bool :=
  forallb (dict_mem env) (success_fields c).

Definition has_error (env : dict) : bool := dict_mem env "error".

Definition has_message (env : dict) : bool :=
  match dict_get env "message" with
  | Some (VStr _) => true
  | _ => false
  end.

(** The two variants of the response envelope. *)
Definition is_success_envelope (c : ToolCall) (env : dict) : bool :=
  has_message env && has_success_fields c env && negb (has_error env).

Definition is_error_envelope (c : ToolCall) (env : dict) : bool :=
  has_message env && has_error env && negb (has_success_fields c env).


(* ================================================================== *)
(** ** What one executor call leaves in the log *)

(** The request [make_api_request] hands to the client when the credential
    is [token]. *)
Definition sent_request (token method url : string)
    (hdrs : option (list (string * string))) (kwargs : dict) : Request :=
  mkRequest (lower method) url
    (merge_headers [("Authorization", "Bearer " ++ token);
                    ("Content-Type", "application/json")] hdrs)
    kwargs.

(** The log once the executor has been entered. *)
Definition executor_called (tr : Trace) (method url : string)
    (hdrs : option (list (string * string))) (kwargs : dict) : Trace :=
  (tr ++ [ExecutorCall method url hdrs kwargs])%list.

(* ================================================================== *)
(** ** Concrete worlds *)

(** Worlds to run the code in: a credential (or none) and a remote. *)
Definition base_world (token : option string)
    (remote : Trace -> Request -> Outcome) : World :=
  mkWorld (fun name =>
             if String.eqb name "GOOGLE_ACCESS_TOKEN" then token else None)
          remote
          (fun rq => ("AttributeError",
                      "'AsyncClient' object has no attribute "
                      ++ quoted (req_verb rq)))
          (fun _ => "")
          (fun _ => "").

Definition plain_response (status : Z) (ctype : string) (body : list byte)
    (body_text : string) (decoded : value + (string * string)) : Response :=
  mkResponse status [("Content-Type", ctype)] body body_text decoded.

Definition no_reply : Response :=
  plain_response 503 "text/plain" [] "" (inr ("JSONDecodeError", "")).

Definition unconfigured_world : World :=
  base_world None (fun _ _ => Responds no_reply).

Definition empty_token_world : World :=
  base_world (Some "") (fun _ _ => Responds no_reply).

Definition configured_world (remote : Trace -> Request -> Outcome) : World :=
  base_world (Some "ya29.token") remote.

Definition always (o : Outcome) : Trace -> Request -> Outcome := fun _ _ => o.

Definition not_found : Response :=
  plain_response 404 "application/json; charset=UTF-8" []
    "File not found" (inr ("JSONDecodeError", "Expecting value")).

Definition pdf_reply : Response :=
  plain_response 200 "application/pdf" [x25; x50; x44; x46] "%PDF"
    (inr ("JSONDecodeError", "Expecting value")).

Definition json_reply (v : value) : Response :=
  plain_response 200 "text/plain; charset=UTF-8" [] "" (inl v).

Definition garbled_reply : Response :=
  plain_response 200 "text/html" [x3c] "<"
    (inr ("JSONDecodeError", "Expecting value: line 1 column 1 (char 0)")).

(* ================================================================== *)
(** ** Reading the log *)

(** The [pageSize] query parameter of a request, if it has one. *)
Definition request_page_size (rq : Request) : option value :=
  match dict_get (req_kwargs rq) "params" with
  | Some (VDict params) => dict_get params "pageSize"
  | _ => None
  end.

(** The page sizes of the requests sent to the remote API, oldest first. *)
Definition page_sizes_sent (tr : Trace) : list value :=
  flat_map (fun ev =>
              match ev with
              | HttpCall rq =>
                  match request_page_size rq with
                  | Some v => [v]
                  | None => []
                  end
              | ExecutorCall _ _ _ _ => []
              end) tr.

(** A remote that answers every request with an empty JSON object. *)
Definition agreeable_world : World :=
  configured_world (always (Responds (json_reply (VDict [])))).

(** A remote that creates the document and then fails the metadata fetch. *)
Definition create_then_fail : Trace -> Request -> Outcome :=
  fun _ rq =>
    if String.eqb (req_verb rq) "post"
    then Responds (json_reply (VDict [("documentId", VStr "doc-42");
                                     ("title", VStr "Report")]))
    else Responds not_found.

(** A successful export whose body is empty. *)
Definition empty_pdf : Response :=
  plain_response 200 "application/pdf" [] ""
    (inr ("JSONDecodeError", "Expecting value")).

(* ================================================================== *)
(** ** The reply of a batch update, read as the specification reads it *)

(** The entry [k] of a JSON object; nothing else has entries. *)
Definition entry (v : value) (k : string) : option value :=
  match v with
  | VDict d => dict_get d k
  | _ => None
  end.

(** The first element of the reply's [replies] list, if it has one. *)
Definition first_reply (reply : value) : option value :=
  match entry reply "replies" with
  | Some (VList (first :: _)) => Some first
  | _ => None
  end.

(** The specification's count: 0 when the replies list is empty, when the
    first reply lacks [replaceAllText], or when that lacks
    [occurrencesChanged]; the [occurrencesChanged] of the first reply
    otherwise. *)
Definition occurrences_by_spec (reply : value) : value :=
  match first_reply reply with
  | None => VInt 0
  | Some first =>
      match entry first "replaceAllText" with
      | None => VInt 0
      | Some summary =>
          match entry summary "occurrencesChanged" with
          | None => VInt 0
          | Some n => n
          end
      end
  end.

Definition is_dict (v : value) : bool :=
  match v with VDict _ => true | _ => false end.




(* ================================================================== *)
(** ** What an error envelope says about the operation *)

(** The identifying fields the error envelope of each tool carries, as its
    [except] clause (or local check) builds it. *)
Definition error_context (c : ToolCall) (env : dict) : Prop :=
  match c with
  | ListDocuments _ => dict_keys env = ["error"; "message"]
  | CreateDocument title => dict_get env "title" = Some (VStr title)
  | ExportDocument document_id export_format =>
      match dict_get mime_types export_format with
      | Some _ => dict_get env "document_id" = Some (VStr document_id)
      | None =>
          dict_get env "error" =
            Some (VStr ("Unsupported export format: " ++ export_format)) /\
          dict_get env "supported_formats" =
            Some (VList (map VStr (dict_keys mime_types)))
      end
  | GetDocument document_id
  | InsertText document_id _ _
  | ReplaceText document_id _ _
  | FormatText document_id _ _ _ _ _
  | InsertImage document_id _ _
  | DeleteDocument document_id =>
      dict_get env "document_id" = Some (VStr document_id)
  end.

(* ================================================================== *)
(** ** The requests of the tools, tabulated *)

(** The style options [format_text] was given, in the order it tests
    them. *)
Definition supplied_styles (bold italic underline : option bool)
  : list (string * bool) :=
  (match bold with Some b => [("bold", b)] | None => [] end
   ++ match italic with Some b => [("italic", b)] | None => [] end
   ++ match underline with Some b => [("underline", b)] | None => [] end)%list.

Definition style_description (s : string * bool) : value :=
  VStr (fst s ++ "=" ++ str_of_bool (snd s)).

(** The keyword arguments of the batch update that applies [styles] to
    the range from [start_index] to [end_index]. *)
Definition format_request (start_index end_index : Z)
    (styles : list (string * bool)) : dict :=
  [("json",
    VDict
      [("requests",
        VList
          [VDict
             [("updateTextStyle",
               VDict [("range",
                       VDict [("startIndex", VInt start_index);
                              ("endIndex", VInt end_index)]);
                      ("textStyle",
                       VDict (map (fun s => (fst s, VBool (snd s))) styles));
                      ("fields",
                       VStr (String.concat "," (map fst styles)))])]])])].

(** Method, URL and keyword arguments of the first executor call of a tool
    invocation; [None] when the tool answers without calling. *)
Definition first_request (c : ToolCall) : option (string * string * dict) :=
  match c with
  | ListDocuments max_results =>
      Some ("GET", DRIVE_API_BASE ++ "/files",
            [("params",
              VDict
                [("q", VStr "mimeType='application/vnd.google-apps.document'");
                 ("pageSize", VInt (Z.min max_results 1000));
                 ("fields",
                  VStr "files(id,name,createdTime,modifiedTime,webViewLink,thumbnailLink,owners)")])])
  | GetDocument document_id =>
      Some ("GET", DOCS_API_BASE ++ "/documents/" ++ document_id, [])
  | CreateDocument title =>
      Some ("POST", DOCS_API_BASE ++ "/documents",
            [("json", VDict [("title", VStr title)])])
  | InsertText document_id text index =>
      Some ("POST", batch_update_url document_id,
            [("json",
              VDict
                [("requests",
                  VList
                    [VDict
                       [("insertText",
                         VDict [("location", VDict [("index", VInt index)]);
                                ("text", VStr text)])]])])])
  | ReplaceText document_id old_text new_text =>
      Some ("POST", batch_update_url document_id,
            [("json",
              VDict
                [("requests",
                  VList
                    [VDict
                       [("replaceAllText",
                         VDict [("containsText",
                                 VDict [("text", VStr old_text);
                                        ("matchCase", VBool false)]);
                                ("replaceText", VStr new_text)])]])])])
  | FormatText document_id start_index end_index bold italic underline =>
      match supplied_styles bold italic underline with
      | [] => None
      | styles =>
          Some ("POST", batch_update_url document_id,
                format_request start_index end_index styles)
      end
  | InsertImage document_id image_url index =>
      Some ("POST", batch_update_url document_id,
            [("json",
              VDict
                [("requests",
                  VList
                    [VDict
                       [("insertInlineImage",
                         VDict [("location", VDict [("index", VInt index)]);
                                ("uri", VStr image_url)])]])])])
  | ExportDocument document_id export_format =>
      match dict_get mime_types export_format with
      | None => None
      | Some mime_type =>
          Some ("GET",
                DRIVE_API_BASE ++ "/files/" ++ document_id ++ "/export",
                [("params", VDict [("mimeType", VStr mime_type)])])
      end
  | DeleteDocument document_id =>
      Some ("DELETE", DRIVE_API_BASE ++ "/files/" ++ document_id, [])
  end.

(** The tools that read the executor's result with [.get]. *)
Definition reads_reply (c : ToolCall) : bool :=
  match c with
  | ListDocuments _ | GetDocument _ | CreateDocument _
  | InsertText _ _ _ | ReplaceText _ _ _ => true
  | _ => false
  end.

(** The tools that build their success envelope from their arguments
    alone. *)
Definition ignores_reply (c : ToolCall) : bool :=
  match c with
  | FormatText _ _ _ _ _ _ | InsertImage _ _ _ | DeleteDocument _ => true
  | _ => false
  end.

(** The keyword arguments of the metadata call of [create_document]. *)
Definition link_request : dict :=
  [("params", VDict [("fields", VStr "webViewLink")])].

(* ================================================================== *)
(** ** Counting in the log *)

(** What one executor call appends to the log: itself, and the request it
    hands to the client when there is a credential and the method is a
    request verb. *)
Definition executor_log (w : World) (method url : string)
    (hdrs : option (list (string * string))) (kwargs : dict) : list Event :=
  ExecutorCall method url hdrs kwargs ::
  match get_access_token w with
  | Ok token =>
      if is_request_verb (lower method)
      then [HttpCall (sent_request token method url hdrs kwargs)]
      else []
  | Raise _ => []
  end.

Definition is_executor_call (ev : Event) : bool :=
  match ev with ExecutorCall _ _ _ _ => true | HttpCall _ => false end.

Definition is_http_call (ev : Event) : bool :=
  match ev with HttpCall _ => true | ExecutorCall _ _ _ _ => false end.

Definition executor_calls (tr : Trace) : nat :=
  List.length (filter is_executor_call tr).

Definition http_calls (tr : Trace) : nat :=
  List.length (filter is_http_call tr).

(** [create_document] may call the executor twice, every other tool once. *)
Definition call_budget (c : ToolCall) : nat :=
  match c with
  | CreateDocument _ => 2%nat
  | _ => 1%nat
  end.

(** The events a tool invocation appends to the log. *)
Definition tool_log (w : World) (c : ToolCall) (evs : list Event) : Prop :=
  match first_request c with
  | None => evs = []
  | Some (method, url, kwargs) =>
      evs = executor_log w method url None kwargs \/
      exists title url',
        c = CreateDocument title /\
        evs = (executor_log w method url None kwargs
               ++ executor_log w "GET" url' None link_request)%list
  end.

(** A request of the log carries the credential of the environment as a
    bearer token, the JSON content type and nothing else, and uses one of
    the three verbs the tools ask for. *)
Definition authenticated (w : World) (ev : Event) : Prop :=
  match ev with
  | ExecutorCall _ _ _ _ => True
  | HttpCall rq =>
      exists token,
        os_getenv w "GOOGLE_ACCESS_TOKEN" = Some token /\
        token <> "" /\
        req_headers rq = [("Authorization", "Bearer " ++ token);
                          ("Content-Type", "application/json")] /\
        In (req_verb rq) ["get"; "post"; "delete"]
  end.

(** A reply labelled [application/json], as a JSON API labels it. *)
Definition labelled_json_reply : Response :=
  plain_response 200 "application/json; charset=UTF-8"
    [x7b; x7d] "{}" (inl (VDict [])).

(** A remote that creates a document without telling its id. *)
Definition create_without_id : Trace -> Request -> Outcome :=
  fun _ rq =>
    if String.eqb (req_verb rq) "post"
    then Responds (json_reply (VDict [("title", VStr "Untitled")]))
    else Responds (json_reply (VDict [("webViewLink", VStr "https://docs.example/d")])).

(** A plain-text export. *)
Definition text_reply : Response :=
  plain_response 200 "text/plain; charset=UTF-8"
    [x68; x65; x6c; x6c; x6f] "hello"
    (inr ("JSONDecodeError", "Expecting value: line 1 column 1 (char 0)")).

(* ================================================================== *)
(** ** The [try] blocks on their own *)

(** The [try] block of each tool, without its [except] clause: what it
    raises is what the clause catches. *)
Definition tool_body (w : World) (c : ToolCall) : M dict :=
  match c with
  | ListDocuments max_results =>
    (let params : dict :=
       [("q", VStr "mimeType='application/vnd.google-apps.document'");
        ("pageSize", VInt (Z.min max_results 1000));
        ("fields",
         VStr "files(id,name,createdTime,modifiedTime,webViewLink,thumbnailLink,owners)")] in
     result <- make_api_request w "GET" (DRIVE_API_BASE ++ "/files") None
                 [("params", VDict params)] ;;
     files <- lift (py_get result "files" (VList [])) ;;
     n <- lift (py_len files) ;;
     ret [("files", files);
          ("count", VInt n);
          ("message",
           VStr ("Successfully listed " ++ str_of_Z n ++ " documents"))])
  | GetDocument document_id =>
    (result <- make_api_request w "GET"
                 (DOCS_API_BASE ++ "/documents/" ++ document_id) None [] ;;
     documentId <- lift (py_get result "documentId" VNone) ;;
     title <- lift (py_get result "title" VNone) ;;
     body <- lift (py_get result "body" VNone) ;;
     title' <- lift (py_get result "title" VNone) ;;
     ret [("documentId", documentId);
          ("title", title);
          ("body", body);
          ("message",
           VStr ("Successfully retrieved document: " ++ py_str w title'))])
  | CreateDocument title =>
    (let document_data : dict := [("title", VStr title)] in
     result <- make_api_request w "POST" (DOCS_API_BASE ++ "/documents") None
                 [("json", VDict document_data)] ;;
     doc_id <- lift (py_get result "documentId" VNone) ;;
     drive_info <- make_api_request w "GET"
                     (DRIVE_API_BASE ++ "/files/" ++ py_str w doc_id) None
                     [("params", VDict [("fields", VStr "webViewLink")])] ;;
     title' <- lift (py_get result "title" VNone) ;;
     webViewLink <- lift (py_get drive_info "webViewLink" VNone) ;;
     ret [("documentId", doc_id);
          ("title", title');
          ("webViewLink", webViewLink);
          ("message", VStr ("Successfully created document: " ++ title))])
  | InsertText document_id text index =>
    (let requests_data : dict :=
       [("requests",
         VList [VDict [("insertText",
                        VDict [("location", VDict [("index", VInt index)]);
                               ("text", VStr text)])]])] in
     result <- make_api_request w "POST" (batch_update_url document_id) None
                 [("json", VDict requests_data)] ;;
     replies <- lift (py_get result "replies" (VList [])) ;;
     ret [("documentId", VStr document_id);
          ("message",
           VStr ("Successfully inserted text at position " ++ str_of_Z index));
          ("replies", replies)])
  | ReplaceText document_id old_text new_text =>
    (let requests_data : dict :=
       [("requests",
         VList [VDict [("replaceAllText",
                        VDict [("containsText",
                                VDict [("text", VStr old_text);
                                       ("matchCase", VBool false)]);
                               ("replaceText", VStr new_text)])]])] in
     result <- make_api_request w "POST" (batch_update_url document_id) None
                 [("json", VDict requests_data)] ;;
     occurrences <- lift (extract_occurrences result) ;;
     ret [("documentId", VStr document_id);
          ("message",
           VStr ("Successfully replaced " ++ py_str w occurrences
                 ++ " occurrence(s) of '" ++ old_text
                 ++ "' with '" ++ new_text ++ "'"));
          ("occurrences_changed", occurrences)])
  | FormatText document_id start_index end_index bold italic underline =>
    (let styles :=
       add_style "underline" underline
         (add_style "italic" italic (add_style "bold" bold ([], []))) in
     let text_style := fst styles in
     let formatting_applied := snd styles in
     match text_style with
     | [] =>
         ret [("error", VStr "No formatting options provided");
              ("document_id", VStr document_id);
              ("message",
               VStr "At least one formatting option (bold, italic, underline) must be specified")]
     | _ =>
         let requests_data : dict :=
           [("requests",
             VList [VDict [("updateTextStyle",
                            VDict [("range",
                                    VDict [("startIndex", VInt start_index);
                                           ("endIndex", VInt end_index)]);
                                   ("textStyle", VDict text_style);
                                   ("fields",
                                    VStr (String.concat ","
                                            (dict_keys text_style)))])]])] in
         make_api_request w "POST" (batch_update_url document_id) None
           [("json", VDict requests_data)] ;;;
         ret [("documentId", VStr document_id);
              ("message",
               VStr ("Successfully formatted text from index "
                     ++ str_of_Z start_index ++ " to " ++ str_of_Z end_index));
              ("formatting_applied", VList formatting_applied)]
     end)
  | InsertImage document_id image_url index =>
    (let requests_data : dict :=
       [("requests",
         VList [VDict [("insertInlineImage",
                        VDict [("location", VDict [("index", VInt index)]);
                               ("uri", VStr image_url)])]])] in
     make_api_request w "POST" (batch_update_url document_id) None
       [("json", VDict requests_data)] ;;;
     ret [("documentId", VStr document_id);
          ("message",
           VStr ("Successfully inserted image at position "
                 ++ str_of_Z index));
          ("image_url", VStr image_url)])
  | ExportDocument document_id export_format =>
    (match dict_get mime_types export_format with
     | None =>
         ret [("error", VStr ("Unsupported export format: " ++ export_format));
              ("supported_formats", VList (map VStr (dict_keys mime_types)));
              ("message",
               VStr ("Format '" ++ export_format ++ "' is not supported"))]
     | Some mime_type =>
         content <- make_api_request w "GET"
                      (DRIVE_API_BASE ++ "/files/" ++ document_id ++ "/export")
                      None [("params", VDict [("mimeType", VStr mime_type)])] ;;
         let content_length := content_length_of content in
         ret [("documentId", VStr document_id);
              ("format", VStr export_format);
              ("content_length", VInt content_length);
              ("message",
               VStr ("Successfully exported document as " ++ export_format
                     ++ " (" ++ str_of_Z content_length ++ " bytes)"));
              ("download_info",
               VStr "Export completed. Content available via Google Drive API.")]
     end)
  | DeleteDocument document_id =>
    (make_api_request w "DELETE" (DRIVE_API_BASE ++ "/files/" ++ document_id)
       None [] ;;;
     ret [("documentId", VStr document_id);
          ("message",
           VStr ("Successfully deleted document " ++ document_id))])
  end.

(** The error text of the two checks a tool makes before calling. *)
Definition local_error (c : ToolCall) : option string :=
  match c with
  | FormatText _ _ _ None None None => Some "No formatting options provided"
  | ExportDocument _ export_format =>
      match dict_get mime_types export_format with
      | None => Some ("Unsupported export format: " ++ export_format)
      | Some _ => None
      end
  | _ => None
  end.

(** A remote that creates the document doc-42 and then answers the
    metadata fetch as the file service answers for a file it does not
    find. *)
Definition create_then_lose : Trace -> Request -> Outcome :=
  fun _ rq =>
    if String.eqb (req_verb rq) "post"
    then Responds (json_reply (VDict [("documentId", VStr "doc-42");
                                     ("title", VStr "Report")]))
    else Responds
           (plain_response 404 "application/json; charset=UTF-8" []
              "File not found: doc-42."
              (inr ("JSONDecodeError", "Expecting value"))).

(* ================================================================== *)
(** ** Reasoning about runs *)

Lemma bind_ok_inv {A B : Type} (m : M A) (k : A -> M B) tr b tr' :
  bind m k tr = (Ok b, tr') ->
  exists a tr1, m tr = (Ok a, tr1) /\ k a tr1 = (Ok b, tr').
Proof.
  unfold bind. destruct (m tr) as [[a | e] tr1]; intros H.
  - exists a, tr1. split; [reflexivity | exact H].
  - discriminate H.
Qed.

Lemma bind_ok {A B : Type} (m : M A) (k : A -> M B) tr a tr1 :
  m tr = (Ok a, tr1) -> bind m k tr = k a tr1.
Proof. unfold bind. intros ->. reflexivity. Qed.

Lemma bind_raise {A B : Type} (m : M A) (k : A -> M B) tr e tr1 :
  m tr = (Raise e, tr1) -> bind m k tr = (Raise e, tr1).
Proof. unfold bind. intros ->. reflexivity. Qed.

Lemma ret_ok_inv {A : Type} (a b : A) tr tr' :
  ret a tr = (Ok b, tr') -> b = a /\ tr' = tr.
Proof. unfold ret. intros H. inversion H. split; reflexivity. Qed.

(** A [try] whose handler returns always returns: either the body's value
    or the handler's. *)
Lemma try_except_returns {A : Type} (body : M A) (h : exn -> A) tr :
  (exists a tr', body tr = (Ok a, tr') /\
     try_except body (fun e => ret (h e)) tr = (Ok a, tr')) \/
  (exists e tr', body tr = (Raise e, tr') /\
     try_except body (fun e => ret (h e)) tr = (Ok (h e), tr')).
Proof.
  unfold try_except, ret.
  destruct (body tr) as [[a | e] tr'].
  - left. exists a, tr'. split; reflexivity.
  - right. exists e, tr'. split; reflexivity.
Qed.

(** Peel the binds off a body known to have returned. *)
Ltac invert_run H :=
  repeat
    (let a := fresh "a" in
     let t := fresh "tr" in
     let Hm := fresh "Hm" in
     apply bind_ok_inv in H; destruct H as (a & t & Hm & H));
  try (apply ret_ok_inv in H; destruct H as [-> ->]).

Arguments make_api_request : simpl never.
Arguments bind : simpl never.
Arguments ret : simpl never.
Arguments try_except : simpl never.

(* ================================================================== *)
(** ** The response envelope *)

Ltac split_try :=
  match goal with
  | |- context [try_except ?b (fun e => ret (@?h e)) ?tr] =>
      let a := fresh "env" in
      let e := fresh "e" in
      let t := fresh "tr'" in
      let Hb := fresh "Hbody" in
      let Ht := fresh "Htry" in
      destruct (try_except_returns b h tr)
        as [(a & t & Hb & Ht) | (e & t & Hb & Ht)];
      cbv beta in Ht; rewrite Ht; clear Ht
  end.

(** Unfold a tool down to its [try] block, deciding the local tests. *)
Ltac open_tool :=
  cbn [invoke];
  unfold list_documents, get_document, create_document, insert_text,
    replace_text, format_text, insert_image, export_document, delete_document;
  repeat match goal with
    | o : option bool |- _ => destruct o
    end;
  try match goal with
    | |- context [dict_get mime_types ?f] =>
        let E := fresh "Efmt" in destruct (dict_get mime_types f) eqn:E
    end;
  simpl.

(** C1. Every invocation of each of the nine tools, whatever the credential,
    the transport and the remote service do, returns a dictionary (no
    exception leaves the tool); the dictionary has a [message] string and
    has either all the success fields of the tool or an [error] field, never
    both. *)
Theorem envelope_invariant (w : World) (c : ToolCall) (tr : Trace) :
  exists env tr',
    invoke w c tr = (Ok env, tr') /\
    has_message env = true /\
    has_success_fields c env = negb (has_error env).
Proof.
  destruct c; open_tool; split_try; try invert_run Hbody;
    (do 2 eexists; split; [reflexivity | split; reflexivity]).
Qed.

(* ================================================================== *)
(** ** The credential *)

(** C10. [get_access_token] raises the configuration error exactly when the
    environment variable is unset or empty, and returns the variable's value
    otherwise. *)
Theorem get_access_token_spec (w : World) :
  ((os_getenv w "GOOGLE_ACCESS_TOKEN" = None \/
    os_getenv w "GOOGLE_ACCESS_TOKEN" = Some "") ->
   get_access_token w =
     Raise (PyError "ValueError"
       "Missing GOOGLE_ACCESS_TOKEN environment variable. Please set it in your .env file or environment."))
  /\
  (forall token,
     os_getenv w "GOOGLE_ACCESS_TOKEN" = Some token -> token <> "" ->
     get_access_token w = Ok token).
Proof.
  unfold get_access_token, not_token. split.
  - intros [-> | ->]; reflexivity.
  - intros token -> Hne.
    destruct (String.eqb_spec token ""); [contradiction | reflexivity].
Qed.

Lemma get_access_token_spec_witness :
  get_access_token unconfigured_world =
    Raise (PyError "ValueError" missing_token_message) /\
  get_access_token empty_token_world =
    Raise (PyError "ValueError" missing_token_message) /\
  get_access_token (configured_world (fun _ _ => Responds no_reply))
    = Ok "ya29.token".
Proof.
  split; [| split].
  - apply (proj1 (get_access_token_spec unconfigured_world)).
    left. reflexivity.
  - apply (proj1 (get_access_token_spec empty_token_world)).
    right. reflexivity.
  - apply (proj2 (get_access_token_spec
                    (configured_world (fun _ _ => Responds no_reply)))).
    + reflexivity.
    + discriminate.
Defined.

(* ================================================================== *)
(** ** The executor *)

Section Executor.

Variable w : World.
Variables method url : string.
Variable hdrs : option (list (string * string)).
Variable kwargs : dict.
Variable tr : Trace.

(** The credential is configured. *)
Variable token : string.
Hypothesis Htoken : get_access_token w = Ok token.

Let rq : Request := sent_request token method url hdrs kwargs.
Let called : Trace := executor_called tr method url hdrs kwargs.
Let requested : Trace := (called ++ [HttpCall rq])%list.

Ltac run_executor :=
  unfold requested, called, rq, executor_called, sent_request in *;
  unfold make_api_request, bind, emit, lift, try_except, client_call,
    raise_for_status, response_json, ret, raise;
  rewrite Htoken; cbv beta iota.

Lemma executor_status_error r :
  is_request_verb (lower method) = true ->
  transport w called rq = Responds r ->
  is_success r = false ->
  make_api_request w method url hdrs kwargs tr =
    (Raise (PyError "Exception"
              ("Google API error " ++ str_of_Z (status_code r) ++ ": "
               ++ text r)),
     requested).
Proof.
  intros Hverb Hres Hst. run_executor.
  rewrite Hverb, Hres, Hst. reflexivity.
Qed.

Lemma executor_bytes r :
  is_request_verb (lower method) = true ->
  transport w called rq = Responds r ->
  is_success r = true ->
  String.prefix "application/"
    (headers_get (headers r) "content-type" "") = true ->
  make_api_request w method url hdrs kwargs tr =
    (Ok (VBytes (content r)), requested).
Proof.
  intros Hverb Hres Hst Hct. run_executor.
  rewrite Hverb, Hres, Hst, Hct. reflexivity.
Qed.

Lemma executor_json r v :
  is_request_verb (lower method) = true ->
  transport w called rq = Responds r ->
  is_success r = true ->
  String.prefix "application/"
    (headers_get (headers r) "content-type" "") = false ->
  json r = inl v ->
  make_api_request w method url hdrs kwargs tr = (Ok v, requested).
Proof.
  intros Hverb Hres Hst Hct Hjs. run_executor.
  rewrite Hverb, Hres, Hst, Hct, Hjs. reflexivity.
Qed.

Lemma executor_undecodable r cls msg :
  is_request_verb (lower method) = true ->
  transport w called rq = Responds r ->
  is_success r = true ->
  String.prefix "application/"
    (headers_get (headers r) "content-type" "") = false ->
  json r = inr (cls, msg) ->
  make_api_request w method url hdrs kwargs tr =
    (Raise (PyError "Exception" ("Request failed: " ++ msg)), requested).
Proof.
  intros Hverb Hres Hst Hct Hjs. run_executor.
  rewrite Hverb, Hres, Hst, Hct, Hjs. reflexivity.
Qed.

Lemma executor_transport_fault cls msg :
  is_request_verb (lower method) = true ->
  transport w called rq = Fails cls msg ->
  make_api_request w method url hdrs kwargs tr =
    (Raise (PyError "Exception" ("Request failed: " ++ msg)), requested).
Proof.
  intros Hverb Hres. run_executor.
  rewrite Hverb, Hres. reflexivity.
Qed.

Lemma executor_no_such_verb :
  is_request_verb (lower method) = false ->
  make_api_request w method url hdrs kwargs tr =
    (Raise (PyError "Exception"
              ("Request failed: " ++ snd (call_fault w rq))),
     called).
Proof.
  intros Hverb. run_executor.
  rewrite Hverb. reflexivity.
Qed.

End Executor.

Lemma executor_unconfigured (w : World) method url hdrs kwargs tr :
  not_token (os_getenv w "GOOGLE_ACCESS_TOKEN") = true ->
  make_api_request w method url hdrs kwargs tr =
    (Raise (PyError "ValueError" missing_token_message),
     (tr ++ [ExecutorCall method url hdrs kwargs])%list).
Proof.
  intros H.
  unfold make_api_request, bind, emit, lift, get_access_token.
  rewrite H. reflexivity.
Qed.

(** C9. With the credential configured, [make_api_request] settles every
    call of every method on every URL as follows.  A response outside 2xx:
    it raises "Google API error <status>: <body text>".  A 2xx response
    whose content type begins with [application/]: it returns the body's
    bytes untouched.  Any other 2xx response: it returns the decoded JSON
    body.  A fault of the client (the transport raising, the body failing to
    decode, the method naming no request verb): it raises
    "Request failed: <description of the cause>". *)
Theorem make_api_request_outcomes
    (w : World) (method url : string) (hdrs : option (list (string * string)))
    (kwargs : dict) (tr : Trace) (token : string) :
  get_access_token w = Ok token ->
  let rq := sent_request token method url hdrs kwargs in
  let called := executor_called tr method url hdrs kwargs in
  let requested := (called ++ [HttpCall rq])%list in
  let run := make_api_request w method url hdrs kwargs tr in
  let is_binary r :=
    String.prefix "application/" (headers_get (headers r) "content-type" "") in
  (* remote API error *)
  (forall r,
     is_request_verb (lower method) = true ->
     transport w called rq = Responds r ->
     is_success r = false ->
     run = (Raise (PyError "Exception"
                     ("Google API error " ++ str_of_Z (status_code r) ++ ": "
                      ++ text r)), requested)) /\
  (* raw bytes *)
  (forall r,
     is_request_verb (lower method) = true ->
     transport w called rq = Responds r ->
     is_success r = true -> is_binary r = true ->
     run = (Ok (VBytes (content r)), requested)) /\
  (* decoded JSON *)
  (forall r v,
     is_request_verb (lower method) = true ->
     transport w called rq = Responds r ->
     is_success r = true -> is_binary r = false -> json r = inl v ->
     run = (Ok v, requested)) /\
  (* request failed: undecodable body, transport fault, unknown verb *)
  (forall r cls msg,
     is_request_verb (lower method) = true ->
     transport w called rq = Responds r ->
     is_success r = true -> is_binary r = false -> json r = inr (cls, msg) ->
     run = (Raise (PyError "Exception" ("Request failed: " ++ msg)),
            requested)) /\
  (forall cls msg,
     is_request_verb (lower method) = true ->
     transport w called rq = Fails cls msg ->
     run = (Raise (PyError "Exception" ("Request failed: " ++ msg)),
            requested)) /\
  (is_request_verb (lower method) = false ->
   run = (Raise (PyError "Exception"
                   ("Request failed: " ++ snd (call_fault w rq))), called)).
Proof.
  intros Htoken rq called requested run is_binary.
  subst rq called requested run is_binary.
  repeat split; intros.
  - eapply executor_status_error; eassumption.
  - eapply executor_bytes; eassumption.
  - eapply executor_json; eassumption.
  - eapply executor_undecodable; eassumption.
  - eapply executor_transport_fault; eassumption.
  - eapply executor_no_such_verb; eassumption.
Qed.

Lemma make_api_request_outcomes_witness :
  (exists t,
     make_api_request (configured_world (always (Responds not_found)))
       "GET" "https://docs.googleapis.com/v1/documents/x" None [] [] =
     (Raise (PyError "Exception" "Google API error 404: File not found"), t))
  /\
  (exists t,
     make_api_request (configured_world (always (Responds pdf_reply)))
       "GET" "https://www.googleapis.com/drive/v3/files/x/export" None [] [] =
     (Ok (VBytes [x25; x50; x44; x46]), t))
  /\
  (exists t,
     make_api_request
       (configured_world (always (Responds (json_reply (VDict [])))))
       "POST" "https://docs.googleapis.com/v1/documents" None [] [] =
     (Ok (VDict []), t))
  /\
  (exists t,
     make_api_request (configured_world (always (Responds garbled_reply)))
       "GET" "https://docs.googleapis.com/v1/documents/x" None [] [] =
     (Raise (PyError "Exception"
               "Request failed: Expecting value: line 1 column 1 (char 0)"), t))
  /\
  (exists t,
     make_api_request
       (configured_world (always (Fails "ConnectError" "connection refused")))
       "DELETE" "https://www.googleapis.com/drive/v3/files/x" None [] [] =
     (Raise (PyError "Exception" "Request failed: connection refused"), t))
  /\
  (exists t,
     make_api_request (configured_world (always (Responds not_found)))
       "FETCH" "https://docs.googleapis.com/v1/documents/x" None [] [] =
     (Raise (PyError "Exception"
               "Request failed: 'AsyncClient' object has no attribute 'fetch'"),
      t)).
Proof.
  repeat split; eexists.
  - apply (proj1 (make_api_request_outcomes
             (configured_world (always (Responds not_found)))
             "GET" _ None [] [] "ya29.token" eq_refl) not_found);
      reflexivity.
  - apply (proj1 (proj2 (make_api_request_outcomes
             (configured_world (always (Responds pdf_reply)))
             "GET" _ None [] [] "ya29.token" eq_refl)) pdf_reply);
      reflexivity.
  - apply (proj1 (proj2 (proj2 (make_api_request_outcomes
             (configured_world (always (Responds (json_reply (VDict [])))))
             "POST" _ None [] [] "ya29.token" eq_refl)))
             (json_reply (VDict [])) (VDict []));
      reflexivity.
  - apply (proj1 (proj2 (proj2 (proj2 (make_api_request_outcomes
             (configured_world (always (Responds garbled_reply)))
             "GET" _ None [] [] "ya29.token" eq_refl))))
             garbled_reply "JSONDecodeError");
      reflexivity.
  - apply (proj1 (proj2 (proj2 (proj2 (proj2 (make_api_request_outcomes
             (configured_world
                (always (Fails "ConnectError" "connection refused")))
             "DELETE" _ None [] [] "ya29.token" eq_refl)))))
             "ConnectError");
      reflexivity.
  - apply (proj2 (proj2 (proj2 (proj2 (proj2 (make_api_request_outcomes
             (configured_world (always (Responds not_found)))
             "FETCH" _ None [] [] "ya29.token" eq_refl))))));
      reflexivity.
Defined.

(* ================================================================== *)
(** ** Local validation *)

(** C4. [format_text] with [bold], [italic] and [underline] all [None], and
    [export_document] with a format that is not a key of the format table,
    return an error envelope and leave the log as it was: the executor is
    not called and no request is sent.  The envelope of [export_document]
    lists exactly pdf, docx, odt, rtf, txt, html and epub. *)
Theorem local_validation_short_circuits
    (w : World) (document_id : string) (tr : Trace) :
  (forall start_index end_index,
     format_text w document_id start_index end_index None None None tr =
       (Ok [("error", VStr "No formatting options provided");
            ("document_id", VStr document_id);
            ("message",
             VStr "At least one formatting option (bold, italic, underline) must be specified")],
        tr))
  /\
  (forall export_format,
     dict_get mime_types export_format = None ->
     export_document w document_id export_format tr =
       (Ok [("error", VStr ("Unsupported export format: " ++ export_format));
            ("supported_formats",
             VList [VStr "pdf"; VStr "docx"; VStr "odt"; VStr "rtf";
                    VStr "txt"; VStr "html"; VStr "epub"]);
            ("message",
             VStr ("Format '" ++ export_format ++ "' is not supported"))],
        tr)).
Proof.
  split.
  - intros. reflexivity.
  - intros export_format Hfmt. unfold export_document. rewrite Hfmt.
    reflexivity.
Qed.

Lemma local_validation_short_circuits_witness :
  export_document unconfigured_world "doc-1" "bogus" [] =
    (Ok [("error", VStr "Unsupported export format: bogus");
         ("supported_formats",
          VList [VStr "pdf"; VStr "docx"; VStr "odt"; VStr "rtf";
                 VStr "txt"; VStr "html"; VStr "epub"]);
         ("message", VStr "Format 'bogus' is not supported")],
     []).
Proof.
  apply (proj2 (local_validation_short_circuits unconfigured_world "doc-1" [])
           "bogus").
  reflexivity.
Defined.

(* ================================================================== *)
(** ** What the executor leaves in the log *)

(** With a credential and a request verb, one executor call logs itself and
    exactly one request, whatever comes back. *)
Lemma executor_trace (w : World) method url hdrs kwargs tr token :
  get_access_token w = Ok token ->
  is_request_verb (lower method) = true ->
  snd (make_api_request w method url hdrs kwargs tr) =
    (executor_called tr method url hdrs kwargs
     ++ [HttpCall (sent_request token method url hdrs kwargs)])%list.
Proof.
  intros Htoken Hverb.
  unfold make_api_request, bind, emit, lift, try_except, client_call,
    raise_for_status, response_json, ret, raise, executor_called,
    sent_request.
  rewrite Htoken. cbv beta iota. rewrite Hverb.
  destruct (transport w _ _) as [r | cls msg]; [| reflexivity].
  destruct (is_success r); [| reflexivity].
  destruct (String.prefix _ _); [reflexivity |].
  destruct (json r) as [v | [cls msg]]; reflexivity.
Qed.

(** A [try] block whose steps after the executor call are pure leaves the
    log where the executor left it. *)
Lemma list_documents_trace (w : World) (N : Z) (tr : Trace) :
  snd (list_documents w N tr) =
  snd (make_api_request w "GET" (DRIVE_API_BASE ++ "/files") None
         [("params",
           VDict [("q", VStr "mimeType='application/vnd.google-apps.document'");
                  ("pageSize", VInt (Z.min N 1000));
                  ("fields",
                   VStr "files(id,name,createdTime,modifiedTime,webViewLink,thumbnailLink,owners)")])]
         tr).
Proof.
  unfold list_documents, try_except, bind, lift, ret.
  destruct (make_api_request _ _ _ _ _ _) as [[result | e] t]; [| reflexivity].
  destruct (py_get result "files" (VList [])) as [files | e]; [| reflexivity].
  destruct (py_len files); reflexivity.
Qed.

Lemma page_sizes_sent_app (tr1 tr2 : Trace) :
  page_sizes_sent (tr1 ++ tr2)%list = (page_sizes_sent tr1 ++ page_sizes_sent tr2)%list.
Proof. unfold page_sizes_sent. apply flat_map_app. Qed.

(* ================================================================== *)
(** ** [list_documents]: the page size *)

(** C3, as the code has it.  Above 1000 the call is the call with 1000:
    same request, same result.  Up to 1000 the page size sent is [N] itself,
    also when [N] is zero or negative. *)
Theorem list_documents_page_size (w : World) (N : Z) (tr : Trace) :
  (1000 < N -> list_documents w N tr = list_documents w 1000 tr) /\
  (N <= 1000 ->
   forall token,
     get_access_token w = Ok token ->
     page_sizes_sent (snd (list_documents w N tr)) =
       (page_sizes_sent tr ++ [VInt N])%list).
Proof.
  split.
  - intros HN. unfold list_documents.
    replace (Z.min N 1000) with 1000 by lia. reflexivity.
  - intros HN token Htoken.
    rewrite list_documents_trace.
    rewrite (executor_trace w "GET" _ _ _ _ token Htoken eq_refl).
    unfold executor_called. rewrite !page_sizes_sent_app.
    replace (Z.min N 1000) with N by lia.
    cbn. rewrite app_nil_r. reflexivity.
Qed.

Lemma list_documents_page_size_witness :
  list_documents agreeable_world 5000 [] = list_documents agreeable_world 1000 []
  /\ page_sizes_sent (snd (list_documents agreeable_world 1000 [])) = [VInt 1000]
  /\ page_sizes_sent (snd (list_documents agreeable_world 0 [])) = [VInt 0].
Proof.
  split; [| split].
  - apply (proj1 (list_documents_page_size agreeable_world 5000 [])). lia.
  - apply (proj2 (list_documents_page_size agreeable_world 1000 [])
             ltac:(lia) "ya29.token").
    reflexivity.
  - apply (proj2 (list_documents_page_size agreeable_world 0 [])
             ltac:(lia) "ya29.token").
    reflexivity.
Defined.

(** C3, as stated, fails below zero: asked for -1 documents, the tool sends
    the page size -1. *)
Lemma negative_page_size_is_sent :
  page_sizes_sent (snd (list_documents agreeable_world (-1) [])) = [VInt (-1)]
  /\ -1 < 0.
Proof. split; [reflexivity | lia]. Qed.

(* ================================================================== *)
(** ** [get_document]: a document that does not exist *)

(** C7. When the remote service answers the request of [get_document] with
    status 404, the tool returns a dictionary whose [error] is
    "Google API error 404: <body text>" (so it contains "404"), whose
    [document_id] is the id asked for, and which has neither [title] nor
    [body]. *)
Theorem get_document_not_found
    (w : World) (document_id token : string) (tr : Trace) (r : Response) :
  get_access_token w = Ok token ->
  transport w
    (executor_called tr "GET" (DOCS_API_BASE ++ "/documents/" ++ document_id)
       None [])
    (sent_request token "GET" (DOCS_API_BASE ++ "/documents/" ++ document_id)
       None []) = Responds r ->
  status_code r = 404 ->
  exists env tr' err,
    get_document w document_id tr = (Ok env, tr') /\
    dict_get env "error" = Some (VStr err) /\
    (exists before after, err = before ++ "404" ++ after) /\
    dict_get env "document_id" = Some (VStr document_id) /\
    dict_get env "title" = None /\
    dict_get env "body" = None.
Proof.
  intros Htoken Hres Hst.
  assert (Hfail : is_success r = false)
    by (unfold is_success; rewrite Hst; reflexivity).
  pose proof (executor_status_error w "GET" _ None [] tr token Htoken r
                eq_refl Hres Hfail) as Hrun.
  rewrite Hst in Hrun.
  unfold get_document, try_except, bind. rewrite Hrun. unfold ret.
  do 3 eexists. split; [reflexivity |].
  split; [reflexivity |].
  split; [exists "Google API error ", (": " ++ text r); reflexivity |].
  repeat split; reflexivity.
Qed.

Lemma get_document_not_found_witness :
  exists env tr',
    get_document (configured_world (always (Responds not_found)))
      "missing-id" [] = (Ok env, tr') /\
    dict_get env "error" =
      Some (VStr "Google API error 404: File not found") /\
    dict_get env "document_id" = Some (VStr "missing-id") /\
    dict_get env "title" = None /\
    dict_get env "body" = None.
Proof.
  destruct (get_document_not_found
              (configured_world (always (Responds not_found)))
              "missing-id" "ya29.token" [] not_found
              eq_refl eq_refl eq_refl)
    as (env & tr' & err & Hrun & Herr & _ & Hid & Htitle & Hbody).
  exists env, tr'. inversion Hrun; subst env tr'.
  repeat split; reflexivity.
Defined.

(* ================================================================== *)
(** ** [create_document]: creation without its link *)

(** C8, as the code has it.  When the creation call returns and the
    metadata call that follows raises, [create_document] returns the error
    envelope made of the failure's text, the title and a message: it has no
    [documentId] field (the id just created is not handed back as a field)
    and none of the other success fields of a created document; its [error]
    is the text of the failure as it was raised, which the remote service
    words.  The log ends with the failed metadata call: nothing is sent to
    undo the creation. *)
Theorem create_document_metadata_failure
    (w : World) (title : string) (tr tr1 tr2 : Trace) (result : dict)
    (e : exn) :
  make_api_request w "POST" (DOCS_API_BASE ++ "/documents") None
    [("json", VDict [("title", VStr title)])] tr = (Ok (VDict result), tr1) ->
  make_api_request w "GET"
    (DRIVE_API_BASE ++ "/files/"
     ++ py_str w (match dict_get result "documentId" with
                  | Some doc_id => doc_id
                  | None => VNone
                  end))
    None [("params", VDict [("fields", VStr "webViewLink")])] tr1
    = (Raise e, tr2) ->
  exists env,
    create_document w title tr = (Ok env, tr2) /\
    env = [("error", VStr (exn_str e));
           ("title", VStr title);
           ("message", VStr ("Failed to create document '" ++ title ++ "'"))] /\
    dict_get env "documentId" = None /\
    dict_get env "webViewLink" = None /\
    is_error_envelope (CreateDocument title) env = true.
Proof.
  intros Hcreate Hfetch.
  eexists. split; [| split; [reflexivity | repeat split; reflexivity]].
  unfold create_document, try_except.
  rewrite (bind_ok _ _ _ _ _ Hcreate). cbn [py_get].
  unfold bind at 1, lift at 1. cbv beta iota.
  rewrite (bind_raise _ _ _ _ _ Hfetch). reflexivity.
Qed.

Lemma create_document_metadata_failure_witness :
  exists t,
    create_document (configured_world create_then_fail) "Report" [] =
      (Ok [("error", VStr "Google API error 404: File not found");
           ("title", VStr "Report");
           ("message", VStr "Failed to create document 'Report'")], t).
Proof.
  destruct (create_document_metadata_failure
              (configured_world create_then_fail) "Report" [] _ _
              [("documentId", VStr "doc-42"); ("title", VStr "Report")]
              (PyError "Exception" "Google API error 404: File not found")
              eq_refl eq_refl)
    as (env & Hrun & Henv & _).
  subst env. eexists. exact Hrun.
Defined.

(** C8, as stated, fails on the id: when the file service words its 404
    after the file it does not find, the tool passes that text on and the
    id of the document just created stands in the envelope, under
    [error]. *)
Lemma created_id_in_error_text :
  (exists t,
     make_api_request (configured_world create_then_lose) "POST"
       (DOCS_API_BASE ++ "/documents") None
       [("json", VDict [("title", VStr "Report")])] [] =
     (Ok (VDict [("documentId", VStr "doc-42"); ("title", VStr "Report")]),
      t)) /\
  (exists env t,
     create_document (configured_world create_then_lose) "Report" [] =
       (Ok env, t) /\
     has_error env = true /\
     dict_get env "error" =
       Some (VStr "Google API error 404: File not found: doc-42.") /\
     str_contains "doc-42" "Google API error 404: File not found: doc-42."
       = true).
Proof.
  split.
  - eexists. cbv. reflexivity.
  - do 2 eexists. split; [cbv; reflexivity | repeat split; reflexivity].
Qed.

(* ================================================================== *)
(** ** [export_document]: the length reported *)

(** C5, as the code has it.  For a format of the table, when the executor
    returns a payload the tool returns the success envelope; its
    [content_length] is the number of bytes of the payload when the payload
    is [bytes] and 0 when it is not, so it is 0 exactly when the payload is
    not [bytes] or is the empty [bytes].  The envelope holds two names, the
    length, a message and a fixed note: the payload itself is not in it. *)
Theorem export_document_content_length
    (w : World) (document_id export_format mime_type : string)
    (tr tr1 : Trace) (payload : value) :
  dict_get mime_types export_format = Some mime_type ->
  make_api_request w "GET"
    (DRIVE_API_BASE ++ "/files/" ++ document_id ++ "/export") None
    [("params", VDict [("mimeType", VStr mime_type)])] tr = (Ok payload, tr1) ->
  exists n,
    export_document w document_id export_format tr =
      (Ok [("documentId", VStr document_id);
           ("format", VStr export_format);
           ("content_length", VInt n);
           ("message",
            VStr ("Successfully exported document as " ++ export_format
                  ++ " (" ++ str_of_Z n ++ " bytes)"));
           ("download_info",
            VStr "Export completed. Content available via Google Drive API.")],
       tr1) /\
    (forall b, payload = VBytes b -> n = Z.of_nat (List.length b)) /\
    (is_bytes payload = false -> n = 0) /\
    (n = 0 <-> is_bytes payload = false \/ payload = VBytes []).
Proof.
  intros Hfmt Hrun.
  exists (content_length_of payload). split; [| split; [| split]].
  - unfold export_document. rewrite Hfmt. unfold try_except.
    rewrite (bind_ok _ _ _ _ _ Hrun). reflexivity.
  - intros b ->. reflexivity.
  - destruct payload; cbn; intros H; reflexivity || discriminate H.
  - destruct payload as [| | | | | b | |]; cbn;
      try (split; [intros _; left; reflexivity | reflexivity]).
    unfold zlen. destruct b as [| x b]; cbn [List.length].
    + split; [intros _; right; reflexivity | reflexivity].
    + split; [lia | intros [H | H]; discriminate H].
Qed.

Lemma export_document_content_length_witness :
  exists t,
    export_document (configured_world (always (Responds pdf_reply)))
      "doc-1" "pdf" [] =
      (Ok [("documentId", VStr "doc-1");
           ("format", VStr "pdf");
           ("content_length", VInt 4);
           ("message",
            VStr "Successfully exported document as pdf (4 bytes)");
           ("download_info",
            VStr "Export completed. Content available via Google Drive API.")],
       t).
Proof.
  destruct (export_document_content_length
              (configured_world (always (Responds pdf_reply)))
              "doc-1" "pdf" "application/pdf" [] _ (VBytes [x25; x50; x44; x46])
              eq_refl eq_refl)
    as (n & Hrun & Hlen & _).
  rewrite (Hlen _ eq_refl) in Hrun.
  eexists. exact Hrun.
Defined.

(** C5, as stated, fails on an empty export: the payload is [bytes], and the
    length reported is 0. *)
Lemma empty_export_reports_zero :
  (exists t,
     make_api_request (configured_world (always (Responds empty_pdf))) "GET"
       (DRIVE_API_BASE ++ "/files/doc-1/export") None
       [("params", VDict [("mimeType", VStr "application/pdf")])] []
     = (Ok (VBytes []), t)) /\
  is_bytes (VBytes []) = true /\
  (exists env t,
     export_document (configured_world (always (Responds empty_pdf)))
       "doc-1" "pdf" [] = (Ok env, t) /\
     dict_get env "content_length" = Some (VInt 0)).
Proof.
  split; [| split].
  - eexists. cbv. reflexivity.
  - reflexivity.
  - do 2 eexists. split; [cbv; reflexivity | reflexivity].
Qed.

(* ================================================================== *)
(** ** [replace_text]: the count of replacements *)






(* ================================================================== *)
(** ** The error envelope *)

Lemma try_except_ok {A : Type} (body : M A) (h : exn -> M A) tr a t :
  body tr = (Ok a, t) -> try_except body h tr = (Ok a, t).
Proof. unfold try_except. intros ->. reflexivity. Qed.

Lemma try_except_caught {A : Type} (body : M A) (h : exn -> A) tr e t :
  body tr = (Raise e, t) ->
  try_except body (fun e => ret (h e)) tr = (Ok (h e), t).
Proof. unfold try_except. intros ->. reflexivity. Qed.

(** Each tool is its [try] block under its [except] clause: what the block
    returns the tool returns, and what the block raises comes back as the
    [error] text of the envelope. *)
Lemma invoke_guards_tool_body (w : World) (c : ToolCall) (tr : Trace) :
  (forall env t,
     tool_body w c tr = (Ok env, t) -> invoke w c tr = (Ok env, t)) /\
  (forall e t,
     tool_body w c tr = (Raise e, t) ->
     exists env,
       invoke w c tr = (Ok env, t) /\
       dict_get env "error" = Some (VStr (exn_str e))).
Proof.
  destruct c; cbn [invoke];
    unfold list_documents, get_document, create_document, insert_text,
      replace_text, format_text, insert_image, export_document,
      delete_document;
    (split;
     [intros env t H; apply try_except_ok; exact H
     | intros e t H; eexists;
       split; [apply try_except_caught; exact H | reflexivity]]).
Qed.

(** C2, as the code has it.  Every error envelope a tool returns has the
    failure's text under [error] and a message: [error] is [str()] of the
    exception the [try] block raised and the [except] clause caught, or,
    for the two checks made before calling, the literal the check gives.
    The envelopes of the tools that work on a document also carry its
    [document_id], and the one of [create_document] the [title]; the
    envelope of [list_documents] has the two fields [error] and [message]
    only, and the envelope [export_document] returns for a format outside
    the table names the format in its error text and carries
    [supported_formats]. *)
Theorem error_envelope_contents
    (w : World) (c : ToolCall) (tr tr' : Trace) (env : dict) :
  invoke w c tr = (Ok env, tr') ->
  has_error env = true ->
  ((exists e,
      tool_body w c tr = (Raise e, tr') /\
      dict_get env "error" = Some (VStr (exn_str e)))
   \/
   (exists err,
      local_error c = Some err /\
      tool_body w c tr = (Ok env, tr') /\
      tr' = tr /\
      dict_get env "error" = Some (VStr err))) /\
  (exists msg, dict_get env "message" = Some (VStr msg)) /\
  error_context c env.
Proof.
  unfold error_context.
  destruct c; cbn [tool_body local_error]; open_tool; split_try;
    intros Hrun Herr; inversion Hrun; subst env tr'; clear Hrun.
  all: try (split;
            [left; eexists; split; [exact Hbody | reflexivity]
            | split; [eexists; reflexivity | repeat split; reflexivity]]).
  all: pose proof Hbody as Hkept; invert_run Hbody;
    try discriminate Herr;
    try (unfold ret in Hkept; discriminate Hkept).
  all: split;
    [right; eexists; split;
       [reflexivity
       | split; [exact Hkept | split; reflexivity]]
    | split; [eexists; reflexivity | repeat split; reflexivity]].
Qed.

Lemma error_envelope_contents_witness :
  (exists err, dict_get
     [("error", VStr missing_token_message);
      ("document_id", VStr "doc-1");
      ("message", VStr "Failed to delete document doc-1")] "error"
     = Some (VStr err)) /\
  dict_get
     [("error", VStr missing_token_message);
      ("document_id", VStr "doc-1");
      ("message", VStr "Failed to delete document doc-1")] "document_id"
     = Some (VStr "doc-1").
Proof.
  destruct (error_envelope_contents unconfigured_world
              (DeleteDocument "doc-1") []
              [ExecutorCall "DELETE"
                 "https://www.googleapis.com/drive/v3/files/doc-1" None []]
              [("error", VStr missing_token_message);
               ("document_id", VStr "doc-1");
               ("message", VStr "Failed to delete document doc-1")]
              eq_refl eq_refl)
    as ([(e & _ & Herr) | (err & _ & _ & _ & Herr)] & _ & Hctx).
  - split; [eexists; exact Herr | exact Hctx].
  - split; [eexists; exact Herr | exact Hctx].
Defined.

(** C2, as stated, fails for the two envelopes it names: the error envelope
    of [list_documents] has no field beside [error] and [message], and the
    envelope of [export_document] for an unsupported format has neither the
    [document_id] passed in nor a [title]. *)
Lemma error_envelopes_without_identifier :
  (exists env t,
     list_documents unconfigured_world 10 [] = (Ok env, t) /\
     has_error env = true /\
     dict_keys env = ["error"; "message"]) /\
  (exists env t,
     export_document unconfigured_world "doc-1" "bogus" [] = (Ok env, t) /\
     has_error env = true /\
     dict_keys env = ["error"; "supported_formats"; "message"] /\
     dict_get env "document_id" = None /\
     dict_get env "title" = None).
Proof.
  split; do 2 eexists.
  - split; [cbv; reflexivity | split; reflexivity].
  - split; [cbv; reflexivity | repeat split; reflexivity].
Qed.

(* ================================================================== *)
(** ** One executor call in the log *)

Lemma executor_appends (w : World) method url hdrs kwargs tr :
  snd (make_api_request w method url hdrs kwargs tr) =
    (tr ++ executor_log w method url hdrs kwargs)%list.
Proof.
  unfold make_api_request, bind, emit, lift, try_except, client_call,
    raise_for_status, response_json, ret, raise, executor_log, sent_request.
  destruct (get_access_token w) as [token | e]; [| reflexivity].
  cbv beta iota.
  destruct (is_request_verb (lower method)).
  - rewrite <- app_assoc. cbn [app].
    destruct (transport w _ _) as [r | cls msg]; [| reflexivity].
    destruct (is_success r); [| reflexivity].
    destruct (String.prefix _ _); [reflexivity |].
    destruct (json r) as [v | [cls msg]]; reflexivity.
  - reflexivity.
Qed.

Lemma executor_result (w : World) method url hdrs kwargs tr :
  exists r,
    make_api_request w method url hdrs kwargs tr =
      (r, (tr ++ executor_log w method url hdrs kwargs)%list).
Proof.
  exists (fst (make_api_request w method url hdrs kwargs tr)).
  rewrite <- executor_appends. apply surjective_pairing.
Qed.

(** The dictionary [format_text] builds is the table of the options
    supplied. *)
Lemma add_style_supplied (bold italic underline : option bool) :
  add_style "underline" underline
    (add_style "italic" italic (add_style "bold" bold ([], []))) =
  (map (fun s => (fst s, VBool (snd s)))
     (supplied_styles bold italic underline),
   map style_description (supplied_styles bold italic underline)).
Proof. destruct bold, italic, underline; reflexivity. Qed.

Lemma format_text_unfold (w : World) document_id start_index end_index
    bold italic underline styles s tr :
  supplied_styles bold italic underline = s :: styles ->
  format_text w document_id start_index end_index bold italic underline tr =
  try_except
    (make_api_request w "POST" (batch_update_url document_id) None
       (format_request start_index end_index (s :: styles)) ;;;
     ret [("documentId", VStr document_id);
          ("message",
           VStr ("Successfully formatted text from index "
                 ++ str_of_Z start_index ++ " to " ++ str_of_Z end_index));
          ("formatting_applied",
           VList (map style_description (s :: styles)))])
    (fun e =>
       ret [("error", VStr (exn_str e));
            ("document_id", VStr document_id);
            ("message",
             VStr ("Failed to format text in document " ++ document_id))])
    tr.
Proof.
  intros Hs.
  destruct bold, italic, underline; cbn in Hs;
    inversion Hs; subst s styles; reflexivity.
Qed.

(* ================================================================== *)
(** ** A failed first call *)

Lemma invoke_first_failure (w : World) (c : ToolCall) (tr tr1 : Trace)
    method url kwargs (e : exn) :
  first_request c = Some (method, url, kwargs) ->
  make_api_request w method url None kwargs tr = (Raise e, tr1) ->
  exists env,
    invoke w c tr = (Ok env, tr1) /\
    dict_get env "error" = Some (VStr (exn_str e)) /\
    has_message env = true /\
    has_success_fields c env = false.
Proof.
  intros Hfirst Hrun.
  destruct c; cbn [first_request] in Hfirst; cbn [invoke].
  6: { destruct (supplied_styles bold italic underline) as [| s styles] eqn:Hs;
         [discriminate Hfirst |].
       inversion Hfirst; subst method url kwargs; clear Hfirst.
       rewrite (format_text_unfold _ _ _ _ _ _ _ _ _ _ Hs).
       unfold try_except. rewrite (bind_raise _ _ _ _ _ Hrun).
       eexists. split; [reflexivity | repeat split; reflexivity]. }
  7: { unfold export_document.
       destruct (dict_get mime_types export_format) as [mime_type |];
         [| discriminate Hfirst].
       inversion Hfirst; subst method url kwargs; clear Hfirst.
       unfold try_except. rewrite (bind_raise _ _ _ _ _ Hrun).
       eexists. split; [reflexivity | repeat split; reflexivity]. }
  all: inversion Hfirst; subst method url kwargs; clear Hfirst;
    unfold list_documents, get_document, create_document, insert_text,
      replace_text, insert_image, delete_document, try_except;
    rewrite (bind_raise _ _ _ _ _ Hrun);
    eexists; (split; [reflexivity | repeat split; reflexivity]).
Qed.

(** X3. When the first executor call of a tool raises, the tool returns
    the error envelope whose [error] is the text of that exception, and
    the log is as the failed call left it: no second call, no retry. *)
Theorem first_failure_is_final (w : World) (c : ToolCall) (tr tr1 : Trace)
    (method url : string) (kwargs : dict) (e : exn) :
  first_request c = Some (method, url, kwargs) ->
  make_api_request w method url None kwargs tr = (Raise e, tr1) ->
  exists env,
    invoke w c tr = (Ok env, tr1) /\
    dict_get env "error" = Some (VStr (exn_str e)) /\
    has_message env = true /\
    has_success_fields c env = false.
Proof. intros Hfirst Hrun. exact (invoke_first_failure _ _ _ _ _ _ _ _ Hfirst Hrun). Qed.

Lemma first_failure_is_final_witness :
  exists env t,
    invoke (configured_world (always (Fails "ConnectTimeout" "timed out")))
      (InsertImage "doc-1" "https://example.org/a.png" 1) [] = (Ok env, t) /\
    dict_get env "error" = Some (VStr "Request failed: timed out").
Proof.
  destruct (first_failure_is_final
              (configured_world (always (Fails "ConnectTimeout" "timed out")))
              (InsertImage "doc-1" "https://example.org/a.png" 1) [] _
              _ _ _ (PyError "Exception" "Request failed: timed out")
              eq_refl eq_refl)
    as (env & Hrun & Herr & _).
  exists env. eexists. split; [exact Hrun | exact Herr].
Defined.

(* ================================================================== *)
(** ** What a tool invocation appends to the log *)

(** After the executor has returned, the rest of a [try] block is pure. *)
Ltac pure_tail :=
  unfold bind, lift, ret;
  repeat match goal with
    | |- context [match ?x with Ok _ => _ | Raise _ => _ end] => destruct x
    end.

Ltac single_call w tr :=
  cbv zeta;
  match goal with
  | |- context [make_api_request w ?m ?u ?h ?k] =>
      let r := fresh "r" in
      let Hr := fresh "Hr" in
      destruct (executor_result w m u h k tr) as [r Hr];
      unfold try_except, bind at 1; rewrite Hr;
      destruct r; [pure_tail |];
      (eexists; split; [reflexivity | left; reflexivity])
  end.

Lemma invoke_log (w : World) (c : ToolCall) (tr : Trace) :
  exists evs,
    snd (invoke w c tr) = (tr ++ evs)%list /\ tool_log w c evs.
Proof.
  unfold tool_log.
  destruct c; cbn [invoke first_request].
  - unfold list_documents. single_call w tr.
  - unfold get_document. single_call w tr.
  - unfold create_document. cbv zeta.
    destruct (executor_result w "POST" (DOCS_API_BASE ++ "/documents") None
                [("json", VDict [("title", VStr title)])] tr) as [r Hr].
    unfold try_except, bind at 1. rewrite Hr.
    destruct r as [result | e];
      [| eexists; split; [reflexivity | left; reflexivity]].
    unfold bind at 1, lift at 1.
    destruct (py_get result "documentId" VNone) as [doc_id | e];
      [| eexists; split; [reflexivity | left; reflexivity]].
    unfold bind at 1.
    match goal with
    | |- context [make_api_request w ?m ?u ?h ?k ?t] =>
        destruct (executor_result w m u h k t) as [r2 Hr2]
    end.
    rewrite Hr2.
    exists (executor_log w "POST" (DOCS_API_BASE ++ "/documents") None
              [("json", VDict [("title", VStr title)])]
            ++ executor_log w "GET"
                 (DRIVE_API_BASE ++ "/files/" ++ py_str w doc_id) None
                 link_request)%list.
    split.
    + rewrite app_assoc. destruct r2; [pure_tail |]; reflexivity.
    + right. exists title. eexists. split; reflexivity.
  - unfold insert_text. single_call w tr.
  - unfold replace_text. single_call w tr.
  - destruct (supplied_styles bold italic underline) as [| s styles] eqn:Hs.
    + exists []. split; [| reflexivity]. rewrite app_nil_r.
      destruct bold, italic, underline; try discriminate Hs. reflexivity.
    + rewrite (format_text_unfold _ _ _ _ _ _ _ _ _ _ Hs). single_call w tr.
  - unfold insert_image. single_call w tr.
  - unfold export_document.
    destruct (dict_get mime_types export_format) as [mime_type |].
    + single_call w tr.
    + exists []. split; [| reflexivity]. rewrite app_nil_r. reflexivity.
  - unfold delete_document. single_call w tr.
Qed.

Lemma executor_log_counts (w : World) method url hdrs kwargs :
  executor_calls (executor_log w method url hdrs kwargs) = 1%nat /\
  (http_calls (executor_log w method url hdrs kwargs) <= 1)%nat.
Proof.
  unfold executor_log, executor_calls, http_calls.
  destruct (get_access_token w); [destruct (is_request_verb _) |];
    cbn; split; lia.
Qed.

Lemma executor_calls_app (a b : list Event) :
  executor_calls (a ++ b)%list = (executor_calls a + executor_calls b)%nat.
Proof. unfold executor_calls. rewrite filter_app, length_app. reflexivity. Qed.

Lemma http_calls_app (a b : list Event) :
  http_calls (a ++ b)%list = (http_calls a + http_calls b)%nat.
Proof. unfold http_calls. rewrite filter_app, length_app. reflexivity. Qed.

(** X4. A tool invocation only appends to the log.  It calls the executor
    at most once ([create_document] at most twice), at least once unless it
    answers from a local check, and every executor call sends at most one
    request. *)
Theorem tool_call_budget (w : World) (c : ToolCall) (tr : Trace) :
  exists evs,
    snd (invoke w c tr) = (tr ++ evs)%list /\
    (executor_calls evs <= call_budget c)%nat /\
    (http_calls evs <= executor_calls evs)%nat /\
    (first_request c = None <-> executor_calls evs = 0%nat).
Proof.
  destruct (invoke_log w c tr) as (evs & Hsnd & Hlog).
  exists evs. split; [exact Hsnd |].
  unfold tool_log in Hlog.
  destruct (first_request c) as [[[method url] kwargs] |].
  - destruct Hlog as [-> | (title & url' & -> & ->)].
    + destruct (executor_log_counts w method url None kwargs) as [He Hh].
      rewrite He.
      split; [destruct c; cbn; lia |].
      split; [lia |]. split; [discriminate | lia].
    + rewrite executor_calls_app, http_calls_app.
      destruct (executor_log_counts w method url None kwargs) as [He Hh].
      destruct (executor_log_counts w "GET" url' None link_request)
        as [He' Hh'].
      rewrite He, He'. cbn [call_budget].
      split; [lia |]. split; [lia |]. split; [discriminate | lia].
  - subst evs. cbn.
    split; [lia |]. split; [lia |]. split; reflexivity.
Qed.

(* ================================================================== *)
(** ** The credential on the wire *)

Lemma get_access_token_ok (w : World) (token : string) :
  get_access_token w = Ok token ->
  os_getenv w "GOOGLE_ACCESS_TOKEN" = Some token /\ token <> "".
Proof.
  unfold get_access_token, not_token.
  destruct (os_getenv w "GOOGLE_ACCESS_TOKEN") as [s |]; [| discriminate].
  destruct (String.eqb_spec s ""); [discriminate |].
  intros H. inversion H. subst s. split; [reflexivity | assumption].
Qed.

Lemma first_request_method (c : ToolCall) method url kwargs :
  first_request c = Some (method, url, kwargs) ->
  method = "GET" \/ method = "POST" \/ method = "DELETE".
Proof.
  destruct c; cbn [first_request]; intros H;
    try (inversion H; auto; fail).
  - destruct (supplied_styles _ _ _); [discriminate | inversion H; auto].
  - destruct (dict_get mime_types _); [inversion H; auto | discriminate].
Qed.

Lemma executor_log_authenticated (w : World) method url kwargs :
  method = "GET" \/ method = "POST" \/ method = "DELETE" ->
  Forall (authenticated w) (executor_log w method url None kwargs).
Proof.
  intros Hm. unfold executor_log.
  constructor; [exact I |].
  destruct (get_access_token w) as [token | e] eqn:Htok; [| constructor].
  destruct (is_request_verb (lower method)); [| constructor].
  constructor; [| constructor].
  destruct (get_access_token_ok w token Htok) as [Henv Hne].
  exists token. repeat split; try assumption.
  destruct Hm as [-> | [-> | ->]]; cbn; auto.
Qed.

(** X5. Every request a tool hands to the HTTP client carries the
    credential read from the environment as [Authorization: Bearer ...],
    the content type [application/json] and no other header, and its verb
    is get, post or delete. *)
Theorem requests_are_authenticated (w : World) (c : ToolCall) (tr : Trace) :
  exists evs,
    snd (invoke w c tr) = (tr ++ evs)%list /\
    Forall (authenticated w) evs.
Proof.
  destruct (invoke_log w c tr) as (evs & Hsnd & Hlog).
  exists evs. split; [exact Hsnd |].
  unfold tool_log in Hlog.
  destruct (first_request c) as [[[method url] kwargs] |] eqn:Hfirst.
  - pose proof (first_request_method c _ _ _ Hfirst) as Hm.
    destruct Hlog as [-> | (title & url' & _ & ->)].
    + apply executor_log_authenticated. exact Hm.
    + apply Forall_app. split; apply executor_log_authenticated; auto.
  - subst evs. constructor.
Qed.

(* ================================================================== *)
(** ** No credential *)

(** X1. Without a credential (the variable unset or empty) a tool that
    reaches the executor returns the error envelope whose [error] is the
    configuration message, and the log gains the executor call alone: no
    request is handed to the HTTP client. *)
Theorem unconfigured_tool_sends_nothing
    (w : World) (c : ToolCall) (tr : Trace) (method url : string)
    (kwargs : dict) :
  not_token (os_getenv w "GOOGLE_ACCESS_TOKEN") = true ->
  first_request c = Some (method, url, kwargs) ->
  exists env,
    invoke w c tr =
      (Ok env, (tr ++ [ExecutorCall method url None kwargs])%list) /\
    dict_get env "error" = Some (VStr missing_token_message) /\
    has_success_fields c env = false.
Proof.
  intros Hnone Hfirst.
  pose proof (executor_unconfigured w method url None kwargs tr Hnone) as Hrun.
  destruct (invoke_first_failure w c tr _ _ _ _ _ Hfirst Hrun)
    as (env & Hinv & Herr & _ & Hno).
  exists env. split; [exact Hinv | split; [exact Herr | exact Hno]].
Qed.

Lemma unconfigured_tool_sends_nothing_witness :
  exists env,
    invoke empty_token_world (GetDocument "doc-1") [] =
      (Ok env,
       [ExecutorCall "GET" "https://docs.googleapis.com/v1/documents/doc-1"
          None []]) /\
    dict_get env "error" = Some (VStr missing_token_message).
Proof.
  destruct (unconfigured_tool_sends_nothing empty_token_world
              (GetDocument "doc-1") [] _ _ _ eq_refl eq_refl)
    as (env & Hrun & Herr & _).
  exists env. split; [exact Hrun | exact Herr].
Defined.

(* ================================================================== *)
(** ** Dictionaries: assignment and lookup *)

Lemma dict_get_set {A : Type} (d : list (string * A)) (k k' : string) (v : A) :
  dict_get (dict_set d k v) k' =
    if String.eqb k k' then Some v else dict_get d k'.
Proof.
  induction d as [| [k0 v0] d IH]; cbn [dict_set dict_get].
  - reflexivity.
  - destruct (String.eqb_spec k0 k) as [-> | Hne]; cbn [dict_get].
    + destruct (String.eqb k k'); reflexivity.
    + rewrite IH. destruct (String.eqb_spec k0 k') as [-> | Hne'].
      * destruct (String.eqb_spec k k'); [congruence | reflexivity].
      * reflexivity.
Qed.

Lemma dict_get_absent {A : Type} (d : list (string * A)) (k : string) :
  ~ In k (dict_keys d) -> dict_get d k = None.
Proof.
  induction d as [| [k0 v0] d IH]; cbn; [reflexivity |].
  intros Hnot. destruct (String.eqb_spec k0 k) as [-> | Hne].
  - exfalso. apply Hnot. left. reflexivity.
  - apply IH. intros Hin. apply Hnot. right. exact Hin.
Qed.

(** [d.update(other)] followed by a lookup: the entry of [other] when it
    has one, the entry of [d] otherwise. *)
Lemma dict_get_update {A : Type} (other d : list (string * A)) (k : string) :
  NoDup (dict_keys other) ->
  dict_get (dict_update d other) k =
    match dict_get other k with
    | Some v => Some v
    | None => dict_get d k
    end.
Proof.
  unfold dict_update. revert d.
  induction other as [| [k0 v0] other IH]; intros d Hnd; cbn [fold_left].
  - reflexivity.
  - cbn [dict_keys map fst] in Hnd. inversion Hnd as [| ? ? Hnotin Hnd'].
    subst. cbn [fst snd]. rewrite (IH _ Hnd'). cbn [dict_get].
    rewrite dict_get_set.
    destruct (String.eqb_spec k0 k) as [-> | Hne].
    + rewrite (dict_get_absent other k Hnotin). reflexivity.
    + reflexivity.
Qed.

(* ================================================================== *)
(** ** Headers of the request *)

(** X2. The headers the executor sends are the two defaults overlaid by
    the caller's: for every name the caller supplies the request carries
    the caller's value (also for [Authorization] and [Content-Type]), and
    for every other name the default, if there is one. *)
Theorem caller_headers_override
    (w : World) (method url : string) (h : list (string * string))
    (kwargs : dict) (tr : Trace) (token : string) :
  get_access_token w = Ok token ->
  is_request_verb (lower method) = true ->
  NoDup (dict_keys h) ->
  exists rq,
    snd (make_api_request w method url (Some h) kwargs tr) =
      (tr ++ [ExecutorCall method url (Some h) kwargs; HttpCall rq])%list /\
    req_verb rq = lower method /\ req_url rq = url /\
    req_kwargs rq = kwargs /\
    forall name,
      dict_get (req_headers rq) name =
        match dict_get h name with
        | Some v => Some v
        | None =>
            dict_get [("Authorization", "Bearer " ++ token);
                      ("Content-Type", "application/json")] name
        end.
Proof.
  intros Htok Hverb Hnd.
  exists (sent_request token method url (Some h) kwargs).
  split; [| split; [reflexivity | split; [reflexivity | split; [reflexivity |]]]].
  - rewrite executor_appends. unfold executor_log.
    rewrite Htok, Hverb. reflexivity.
  - intros name. unfold sent_request, merge_headers. cbn [req_headers].
    destruct h as [| kv more]; [reflexivity |].
    apply dict_get_update. exact Hnd.
Qed.

Lemma caller_headers_override_witness :
  exists rq,
    snd (make_api_request agreeable_world "PATCH" "https://example.org/x"
           (Some [("Content-Type", "text/plain"); ("X-Trace", "1")]) [] []) =
      [ExecutorCall "PATCH" "https://example.org/x"
         (Some [("Content-Type", "text/plain"); ("X-Trace", "1")]) [];
       HttpCall rq] /\
    dict_get (req_headers rq) "Content-Type" = Some "text/plain" /\
    dict_get (req_headers rq) "Authorization" = Some "Bearer ya29.token" /\
    dict_get (req_headers rq) "X-Trace" = Some "1".
Proof.
  assert (Hnd : NoDup (dict_keys [("Content-Type", "text/plain");
                                  ("X-Trace", "1")])).
  { cbn. constructor.
    - intros [H | []]. discriminate H.
    - constructor; [intros [] | constructor]. }
  destruct (caller_headers_override agreeable_world "PATCH"
              "https://example.org/x"
              [("Content-Type", "text/plain"); ("X-Trace", "1")] [] []
              "ya29.token" eq_refl eq_refl Hnd)
    as (rq & Hsnd & _ & _ & _ & Hget).
  exists rq. split; [exact Hsnd |].
  split; [apply (Hget "Content-Type") |].
  split; [apply (Hget "Authorization") | apply (Hget "X-Trace")].
Defined.

(* ================================================================== *)
(** ** [format_text]: what is applied *)

(** X6. With at least one of [bold], [italic], [underline] supplied,
    [format_text] makes one batch update whose [textStyle] holds exactly
    the supplied options and whose [fields] mask is their names joined by
    commas, in the order bold, italic, underline; when the executor
    returns, whatever it returns, the success envelope lists the options as
    "name=True" or "name=False" in the same order. *)
Theorem format_text_applies_supplied
    (w : World) (document_id : string) (start_index end_index : Z)
    (bold italic underline : option bool) (tr tr1 : Trace) (reply : value) :
  supplied_styles bold italic underline <> [] ->
  make_api_request w "POST" (batch_update_url document_id) None
    (format_request start_index end_index
       (supplied_styles bold italic underline)) tr = (Ok reply, tr1) ->
  format_text w document_id start_index end_index bold italic underline tr =
    (Ok [("documentId", VStr document_id);
         ("message",
          VStr ("Successfully formatted text from index "
                ++ str_of_Z start_index ++ " to " ++ str_of_Z end_index));
         ("formatting_applied",
          VList (map style_description
                   (supplied_styles bold italic underline)))],
     tr1).
Proof.
  intros Hne Hrun.
  destruct (supplied_styles bold italic underline) as [| s styles] eqn:Hs;
    [contradiction |].
  rewrite (format_text_unfold _ _ _ _ _ _ _ _ _ _ Hs).
  unfold try_except. rewrite (bind_ok _ _ _ _ _ Hrun). reflexivity.
Qed.

Lemma format_text_applies_supplied_witness :
  exists t,
    format_text agreeable_world "doc-1" 1 5 (Some true) None (Some false) [] =
      (Ok [("documentId", VStr "doc-1");
           ("message", VStr "Successfully formatted text from index 1 to 5");
           ("formatting_applied",
            VList [VStr "bold=True"; VStr "underline=False"])], t)
    /\ format_request 1 5 (supplied_styles (Some true) None (Some false)) =
       [("json",
         VDict
           [("requests",
             VList
               [VDict
                  [("updateTextStyle",
                    VDict [("range",
                            VDict [("startIndex", VInt 1);
                                   ("endIndex", VInt 5)]);
                           ("textStyle",
                            VDict [("bold", VBool true);
                                   ("underline", VBool false)]);
                           ("fields", VStr "bold,underline")])]])])].
Proof.
  eexists. split; [| reflexivity].
  apply (format_text_applies_supplied agreeable_world "doc-1" 1 5
           (Some true) None (Some false) [] _ (VDict [])).
  - discriminate.
  - cbv. reflexivity.
Defined.

(* ================================================================== *)
(** ** [export_document]: format names *)

Lemma mime_types_keys_lower (export_format mime_type : string) :
  dict_get mime_types export_format = Some mime_type ->
  lower export_format = export_format.
Proof.
  unfold mime_types. cbn [dict_get].
  repeat match goal with
    | |- context [String.eqb ?k export_format] =>
        destruct (String.eqb_spec k export_format) as [<- | _];
        [intros _; reflexivity |]
    end.
  discriminate.
Qed.

(** X7. Format names are matched as written: a name with an upper-case
    letter (one that [lower] changes), such as "PDF", is no key of the
    table, so [export_document] rejects it locally and calls nothing. *)
Theorem export_format_is_case_sensitive
    (w : World) (document_id export_format : string) (tr : Trace) :
  lower export_format <> export_format ->
  export_document w document_id export_format tr =
    (Ok [("error", VStr ("Unsupported export format: " ++ export_format));
         ("supported_formats",
          VList [VStr "pdf"; VStr "docx"; VStr "odt"; VStr "rtf";
                 VStr "txt"; VStr "html"; VStr "epub"]);
         ("message",
          VStr ("Format '" ++ export_format ++ "' is not supported"))],
     tr).
Proof.
  intros Hcase. unfold export_document.
  destruct (dict_get mime_types export_format) as [mime_type |] eqn:Hfmt.
  - exfalso. apply Hcase. exact (mime_types_keys_lower _ _ Hfmt).
  - reflexivity.
Qed.

Lemma export_format_is_case_sensitive_witness :
  exists env,
    export_document agreeable_world "doc-1" "PDF" [] = (Ok env, []) /\
    dict_get env "error" = Some (VStr "Unsupported export format: PDF").
Proof.
  eexists. split.
  - apply (export_format_is_case_sensitive agreeable_world "doc-1" "PDF" []).
    discriminate.
  - reflexivity.
Defined.

(* ================================================================== *)
(** ** Replies that are not JSON objects *)

Lemma reader_rejects_non_object (w : World) (c : ToolCall) (tr tr1 : Trace)
    method url kwargs (reply : value) :
  reads_reply c = true ->
  first_request c = Some (method, url, kwargs) ->
  make_api_request w method url None kwargs tr = (Ok reply, tr1) ->
  is_dict reply = false ->
  exists env,
    invoke w c tr = (Ok env, tr1) /\
    dict_get env "error" =
      Some (VStr (quoted (type_name reply)
                  ++ " object has no attribute 'get'")) /\
    has_success_fields c env = false.
Proof.
  intros Hreads Hfirst Hrun Hnd.
  destruct c; try discriminate Hreads; cbn [first_request] in Hfirst;
    inversion Hfirst; subst method url kwargs; clear Hfirst;
    cbn [invoke];
    unfold list_documents, get_document, create_document, insert_text,
      replace_text, try_except;
    rewrite (bind_ok _ _ _ _ _ Hrun);
    destruct reply; try discriminate Hnd;
    (eexists; split; [reflexivity | split; reflexivity]).
Qed.

(** X8. The tools that read the executor's result ([list_documents],
    [get_document], [create_document], [insert_text], [replace_text])
    return the error envelope when the result is anything but a JSON
    object: its [error] is "'<type>' object has no attribute 'get'", and
    nothing more is called ([create_document] makes no second call). *)
Theorem non_object_reply_is_an_error
    (w : World) (c : ToolCall) (tr tr1 : Trace) (method url : string)
    (kwargs : dict) (reply : value) :
  reads_reply c = true ->
  first_request c = Some (method, url, kwargs) ->
  make_api_request w method url None kwargs tr = (Ok reply, tr1) ->
  is_dict reply = false ->
  exists env,
    invoke w c tr = (Ok env, tr1) /\
    dict_get env "error" =
      Some (VStr (quoted (type_name reply)
                  ++ " object has no attribute 'get'")) /\
    has_success_fields c env = false.
Proof.
  intros Hreads Hfirst Hrun Hnd.
  exact (reader_rejects_non_object _ _ _ _ _ _ _ _ Hreads Hfirst Hrun Hnd).
Qed.

Lemma non_object_reply_is_an_error_witness :
  exists env t,
    invoke
      (configured_world
         (always (Responds (json_reply (VList [VStr "a"; VStr "b"])))))
      (ListDocuments 10) [] = (Ok env, t) /\
    dict_get env "error" =
      Some (VStr "'list' object has no attribute 'get'").
Proof.
  destruct (non_object_reply_is_an_error
              (configured_world
                 (always (Responds (json_reply (VList [VStr "a"; VStr "b"])))))
              (ListDocuments 10) [] _ _ _ _ (VList [VStr "a"; VStr "b"])
              eq_refl eq_refl eq_refl eq_refl)
    as (env & Hrun & Herr & _).
  exists env. eexists. split; [exact Hrun | exact Herr].
Defined.

(** X9. A 2xx response whose content type begins with [application/] is
    handed on as [bytes], so for such a response (one labelled
    [application/json] included) the tools that read the result return the
    error envelope "'bytes' object has no attribute 'get'". *)
Theorem application_reply_breaks_readers
    (w : World) (c : ToolCall) (tr : Trace) (method url token : string)
    (kwargs : dict) (r : Response) :
  reads_reply c = true ->
  first_request c = Some (method, url, kwargs) ->
  get_access_token w = Ok token ->
  transport w (executor_called tr method url None kwargs)
    (sent_request token method url None kwargs) = Responds r ->
  is_success r = true ->
  String.prefix "application/"
    (headers_get (headers r) "content-type" "") = true ->
  exists env tr1,
    invoke w c tr = (Ok env, tr1) /\
    dict_get env "error" =
      Some (VStr "'bytes' object has no attribute 'get'") /\
    has_success_fields c env = false.
Proof.
  intros Hreads Hfirst Htok Hres Hok Hct.
  assert (Hverb : is_request_verb (lower method) = true).
  { destruct (first_request_method c _ _ _ Hfirst) as [-> | [-> | ->]];
      reflexivity. }
  pose proof (executor_bytes w method url None kwargs tr token Htok r
                Hverb Hres Hok Hct) as Hrun.
  destruct (reader_rejects_non_object w c tr _ _ _ _ _ Hreads Hfirst Hrun
              eq_refl) as (env & Hinv & Herr & Hno).
  exists env. eexists. split; [exact Hinv | split; [exact Herr | exact Hno]].
Qed.

Lemma application_reply_breaks_readers_witness :
  exists env t,
    invoke (configured_world (always (Responds labelled_json_reply)))
      (GetDocument "doc-1") [] = (Ok env, t) /\
    dict_get env "error" =
      Some (VStr "'bytes' object has no attribute 'get'").
Proof.
  destruct (application_reply_breaks_readers
              (configured_world (always (Responds labelled_json_reply)))
              (GetDocument "doc-1") [] _ _ "ya29.token" _ labelled_json_reply
              eq_refl eq_refl eq_refl eq_refl eq_refl eq_refl)
    as (env & t & Hrun & Herr & _).
  exists env, t. split; [exact Hrun | exact Herr].
Defined.

(* ================================================================== *)
(** ** Tools that do not look at the reply *)

(** X10. [format_text], [insert_image] and [delete_document] build their
    success envelope from their arguments: the call fixes one envelope, and
    in every world and after every log, once the executor returns, the
    tool returns that envelope whatever was returned (an object, bytes, a
    list, null). *)
Theorem writers_ignore_reply
    (c : ToolCall) (method url : string) (kwargs : dict) :
  ignores_reply c = true ->
  first_request c = Some (method, url, kwargs) ->
  exists env,
    is_success_envelope c env = true /\
    forall (w : World) (tr tr1 : Trace) (reply : value),
      make_api_request w method url None kwargs tr = (Ok reply, tr1) ->
      invoke w c tr = (Ok env, tr1).
Proof.
  intros Hign Hfirst.
  destruct c; try discriminate Hign; cbn [first_request] in Hfirst;
    cbn [invoke].
  - destruct (supplied_styles bold italic underline) as [| s styles] eqn:Hs;
      [discriminate Hfirst |].
    inversion Hfirst; subst method url kwargs; clear Hfirst.
    eexists. split; [| intros w tr tr1 reply Hrun;
      rewrite (format_text_unfold _ _ _ _ _ _ _ _ _ _ Hs);
      unfold try_except; rewrite (bind_ok _ _ _ _ _ Hrun); reflexivity].
    reflexivity.
  - inversion Hfirst; subst method url kwargs; clear Hfirst.
    eexists. split; [| intros w tr tr1 reply Hrun;
      unfold insert_image, try_except;
      rewrite (bind_ok _ _ _ _ _ Hrun); reflexivity].
    reflexivity.
  - inversion Hfirst; subst method url kwargs; clear Hfirst.
    eexists. split; [| intros w tr tr1 reply Hrun;
      unfold delete_document, try_except;
      rewrite (bind_ok _ _ _ _ _ Hrun); reflexivity].
    reflexivity.
Qed.

Lemma writers_ignore_reply_witness :
  exists env,
    is_success_envelope (DeleteDocument "doc-1") env = true /\
    (exists t,
       invoke (configured_world (always (Responds pdf_reply)))
         (DeleteDocument "doc-1") [] = (Ok env, t)) /\
    (exists t,
       invoke agreeable_world (DeleteDocument "doc-1") [] = (Ok env, t)).
Proof.
  destruct (writers_ignore_reply (DeleteDocument "doc-1") _ _ _
              eq_refl eq_refl)
    as (env & Hok & Hall).
  exists env. split; [exact Hok |]. split; eexists.
  - apply (Hall (configured_world (always (Responds pdf_reply))) [] _
             (VBytes [x25; x50; x44; x46])).
    cbv. reflexivity.
  - apply (Hall agreeable_world [] _ (VDict [])). cbv. reflexivity.
Defined.

(* ================================================================== *)
(** ** [list_documents]: files and their count *)

(** X11. When the executor returns a JSON object, [list_documents] passes
    its [files] list through unchanged and counts it: the count is the
    length of what the remote returned (it is not cut to [max_results]),
    and an object without [files] gives the empty list and the count 0. *)
Theorem list_documents_counts_files
    (w : World) (max_results : Z) (tr tr1 : Trace) (d : dict) :
  make_api_request w "GET" (DRIVE_API_BASE ++ "/files") None
    [("params",
      VDict [("q", VStr "mimeType='application/vnd.google-apps.document'");
             ("pageSize", VInt (Z.min max_results 1000));
             ("fields",
              VStr "files(id,name,createdTime,modifiedTime,webViewLink,thumbnailLink,owners)")])]
    tr = (Ok (VDict d), tr1) ->
  (dict_get d "files" = None ->
   list_documents w max_results tr =
     (Ok [("files", VList []);
          ("count", VInt 0);
          ("message", VStr "Successfully listed 0 documents")], tr1))
  /\
  (forall files,
     dict_get d "files" = Some (VList files) ->
     list_documents w max_results tr =
       (Ok [("files", VList files);
            ("count", VInt (Z.of_nat (List.length files)));
            ("message",
             VStr ("Successfully listed "
                   ++ str_of_Z (Z.of_nat (List.length files))
                   ++ " documents"))], tr1)).
Proof.
  intros Hrun. split.
  - intros Hnone. unfold list_documents, try_except. cbv zeta.
    rewrite (bind_ok _ _ _ _ _ Hrun). cbn [py_get]. rewrite Hnone.
    reflexivity.
  - intros files Hfiles. unfold list_documents, try_except. cbv zeta.
    rewrite (bind_ok _ _ _ _ _ Hrun). cbn [py_get]. rewrite Hfiles.
    reflexivity.
Qed.

Lemma list_documents_counts_files_witness :
  (exists t,
     list_documents agreeable_world 10 [] =
       (Ok [("files", VList []);
            ("count", VInt 0);
            ("message", VStr "Successfully listed 0 documents")], t)) /\
  (exists t,
     list_documents
       (configured_world
          (always (Responds (json_reply
             (VDict [("files", VList [VStr "a"; VStr "b"; VStr "c"])])))))
       2 [] =
       (Ok [("files", VList [VStr "a"; VStr "b"; VStr "c"]);
            ("count", VInt 3);
            ("message", VStr "Successfully listed 3 documents")], t)).
Proof.
  split; eexists.
  - apply (proj1 (list_documents_counts_files agreeable_world 10 [] _ []
                    ltac:(cbv; reflexivity))).
    reflexivity.
  - apply (proj2 (list_documents_counts_files
                    (configured_world
                       (always (Responds (json_reply
                          (VDict [("files",
                                   VList [VStr "a"; VStr "b"; VStr "c"])])))))
                    2 [] _ [("files", VList [VStr "a"; VStr "b"; VStr "c"])]
                    ltac:(cbv; reflexivity))
             [VStr "a"; VStr "b"; VStr "c"]).
    reflexivity.
Defined.

(* ================================================================== *)
(** ** [replace_text]: the count is the specification's or there is none *)

Lemma prefix_of_one_char (c : ascii) :
  String.prefix "replaceAllText" (String c "") = false.
Proof.
  change (String.prefix "replaceAllText" (String c ""))
    with (if ascii_dec "r" c
          then String.prefix "eplaceAllText" "" else false).
  destruct (ascii_dec "r" c); reflexivity.
Qed.

Lemma extract_occurrences_sound (reply v : value) :
  extract_occurrences reply = Ok v -> v = occurrences_by_spec reply.
Proof.
  unfold extract_occurrences, occurrences_by_spec, first_reply, entry, py_get.
  destruct reply as [| | | | | | | d]; try discriminate.
  destruct (dict_get d "replies") as [replies |];
    [| cbn; intros H; inversion H; reflexivity].
  destruct replies as [| b | z | f | s | bs | l | rd].
  - cbn. intros H; inversion H; reflexivity.
  - destruct b; cbn; intros H; [discriminate H | inversion H; reflexivity].
  - cbn [truthy]. destruct (negb (z =? 0)); cbn;
      intros H; [discriminate H | inversion H; reflexivity].
  - cbn [truthy]. destruct (negb _); cbn;
      intros H; [discriminate H | inversion H; reflexivity].
  - destruct s as [| c s]; cbn [truthy String.eqb negb py_item0 py_in].
    + intros H; inversion H; reflexivity.
    + cbn [str_contains]. rewrite prefix_of_one_char. cbn.
      intros H; inversion H; reflexivity.
  - destruct bs; cbn; intros H; [inversion H; reflexivity | discriminate H].
  - destruct l as [| first rest]; cbn [truthy py_item0];
      [intros H; inversion H; reflexivity |].
    destruct first as [| | | | s | | l' | fd]; cbn [py_in py_item];
      try discriminate.
    + destruct (str_contains "replaceAllText" s);
        intros H; [discriminate H | inversion H; reflexivity].
    + destruct (existsb (is_str "replaceAllText") l');
        intros H; [discriminate H | inversion H; reflexivity].
    + unfold dict_mem.
      destruct (dict_get fd "replaceAllText") as [summary |];
        [| intros H; inversion H; reflexivity].
      destruct summary; try discriminate.
      intros H; inversion H; reflexivity.
  - destruct rd; cbn; intros H; [inversion H; reflexivity | discriminate H].
Qed.

(** X12. Whatever the executor returns to [replace_text], the tool either
    returns the error envelope, without [occurrences_changed], or the
    success envelope whose [occurrences_changed] is the specification's
    count for that reply: it never reports another number. *)
Theorem replace_text_count_is_sound
    (w : World) (document_id old_text new_text : string) (tr tr1 : Trace)
    (reply : value) :
  make_api_request w "POST" (batch_update_url document_id) None
    [("json",
      VDict [("requests",
              VList [VDict [("replaceAllText",
                             VDict [("containsText",
                                     VDict [("text", VStr old_text);
                                            ("matchCase", VBool false)]);
                                    ("replaceText", VStr new_text)])]])])]
    tr = (Ok reply, tr1) ->
  exists env,
    replace_text w document_id old_text new_text tr = (Ok env, tr1) /\
    ((has_error env = false /\
      dict_get env "occurrences_changed" = Some (occurrences_by_spec reply))
     \/
     (has_error env = true /\
      dict_get env "occurrences_changed" = None)).
Proof.
  intros Hrun. unfold replace_text, try_except. cbv zeta.
  rewrite (bind_ok _ _ _ _ _ Hrun). unfold bind at 1, lift at 1.
  destruct (extract_occurrences reply) as [v | e] eqn:Hex.
  - apply extract_occurrences_sound in Hex. subst v.
    eexists. split; [reflexivity | left; split; reflexivity].
  - eexists. split; [reflexivity | right; split; reflexivity].
Qed.

Lemma replace_text_count_is_sound_witness :
  exists env t,
    replace_text
      (configured_world
         (always (Responds (json_reply (VDict [("replies", VStr "none")])))))
      "doc-1" "a" "b" [] = (Ok env, t) /\
    dict_get env "occurrences_changed" = Some (VInt 0).
Proof.
  destruct (replace_text_count_is_sound
              (configured_world
                 (always (Responds
                    (json_reply (VDict [("replies", VStr "none")])))))
              "doc-1" "a" "b" [] _ (VDict [("replies", VStr "none")])
              ltac:(cbv; reflexivity))
    as (env & Hrun & _).
  exists env. eexists. split; [exact Hrun |].
  inversion Hrun. reflexivity.
Defined.

(* ================================================================== *)
(** ** [create_document]: the two calls together *)

(** X13. When both calls return JSON objects, [create_document] returns
    the success envelope: [documentId] and [title] are the entries of the
    creation reply (the title is the remote's, not the argument), the link
    is the [webViewLink] of the metadata reply, and a missing entry is
    [None]; the metadata call asks for the file whose id is the
    [documentId] as [str()] prints it. *)
Theorem create_document_success
    (w : World) (title : string) (tr tr1 tr2 : Trace) (created info : dict) :
  make_api_request w "POST" (DOCS_API_BASE ++ "/documents") None
    [("json", VDict [("title", VStr title)])] tr = (Ok (VDict created), tr1) ->
  make_api_request w "GET"
    (DRIVE_API_BASE ++ "/files/"
     ++ py_str w (match dict_get created "documentId" with
                  | Some doc_id => doc_id
                  | None => VNone
                  end))
    None link_request tr1 = (Ok (VDict info), tr2) ->
  create_document w title tr =
    (Ok [("documentId",
          match dict_get created "documentId" with
          | Some doc_id => doc_id
          | None => VNone
          end);
         ("title",
          match dict_get created "title" with
          | Some t => t
          | None => VNone
          end);
         ("webViewLink",
          match dict_get info "webViewLink" with
          | Some link => link
          | None => VNone
          end);
         ("message", VStr ("Successfully created document: " ++ title))],
     tr2).
Proof.
  intros Hcreate Hfetch.
  unfold create_document, try_except. cbv zeta.
  rewrite (bind_ok _ _ _ _ _ Hcreate). cbn [py_get].
  unfold bind at 1, lift at 1. cbv beta iota.
  unfold link_request in Hfetch.
  rewrite (bind_ok _ _ _ _ _ Hfetch). reflexivity.
Qed.

Lemma create_document_success_witness :
  exists t,
    create_document (configured_world create_without_id) "Report" [] =
      (Ok [("documentId", VNone);
           ("title", VStr "Untitled");
           ("webViewLink", VStr "https://docs.example/d");
           ("message", VStr "Successfully created document: Report")], t).
Proof.
  eexists.
  eapply (create_document_success (configured_world create_without_id)
           "Report" [] _ _ [("title", VStr "Untitled")]
           [("webViewLink", VStr "https://docs.example/d")]);
    cbv; reflexivity.
Defined.

(** X14. When the creation reply is an object without [documentId], the
    tool goes on all the same: its second call asks the file service for
    the file named "None". *)
Theorem create_document_without_id
    (w : World) (title : string) (tr tr1 : Trace) (created : dict) :
  make_api_request w "POST" (DOCS_API_BASE ++ "/documents") None
    [("json", VDict [("title", VStr title)])] tr = (Ok (VDict created), tr1) ->
  dict_get created "documentId" = None ->
  snd (create_document w title tr) =
    (tr1 ++ executor_log w "GET" (DRIVE_API_BASE ++ "/files/None") None
              link_request)%list.
Proof.
  intros Hcreate Hnone.
  unfold create_document, try_except. cbv zeta.
  rewrite (bind_ok _ _ _ _ _ Hcreate). cbn [py_get]. rewrite Hnone.
  unfold bind at 1, lift at 1. cbv beta iota.
  destruct (executor_result w "GET"
              (DRIVE_API_BASE ++ "/files/" ++ py_str w VNone) None
              link_request tr1) as [r Hr].
  unfold link_request in Hr. unfold bind at 1. rewrite Hr.
  destruct r; [pure_tail |]; reflexivity.
Qed.

Lemma create_document_without_id_witness :
  snd (create_document (configured_world create_without_id) "Report" []) =
    [ExecutorCall "POST" "https://docs.googleapis.com/v1/documents" None
       [("json", VDict [("title", VStr "Report")])];
     HttpCall
       (mkRequest "post" "https://docs.googleapis.com/v1/documents"
          [("Authorization", "Bearer ya29.token");
           ("Content-Type", "application/json")]
          [("json", VDict [("title", VStr "Report")])]);
     ExecutorCall "GET" "https://www.googleapis.com/drive/v3/files/None" None
       [("params", VDict [("fields", VStr "webViewLink")])];
     HttpCall
       (mkRequest "get" "https://www.googleapis.com/drive/v3/files/None"
          [("Authorization", "Bearer ya29.token");
           ("Content-Type", "application/json")]
          [("params", VDict [("fields", VStr "webViewLink")])])].
Proof.
  rewrite (create_document_without_id (configured_world create_without_id)
             "Report" []
             [ExecutorCall "POST" "https://docs.googleapis.com/v1/documents"
                None [("json", VDict [("title", VStr "Report")])];
              HttpCall
                (mkRequest "post" "https://docs.googleapis.com/v1/documents"
                   [("Authorization", "Bearer ya29.token");
                    ("Content-Type", "application/json")]
                   [("json", VDict [("title", VStr "Report")])])]
             [("title", VStr "Untitled")]
             ltac:(cbv; reflexivity) eq_refl).
  reflexivity.
Defined.

(* ================================================================== *)
(** ** The two spellings of the document id *)

(** X15. The envelopes keep the two variants apart by their keys: an
    envelope with [error] never has [documentId] or [files], and an
    envelope without [error] never has [document_id] or
    [supported_formats]. *)
Theorem envelope_keys_tell_variants (w : World) (c : ToolCall) (tr : Trace) :
  exists env tr',
    invoke w c tr = (Ok env, tr') /\
    (has_error env = true ->
     dict_get env "documentId" = None /\ dict_get env "files" = None) /\
    (has_error env = false ->
     dict_get env "document_id" = None /\
     dict_get env "supported_formats" = None).
Proof.
  destruct c; open_tool; split_try; try invert_run Hbody;
    (do 2 eexists; split; [reflexivity |];
     split; intros H; try discriminate H; split; reflexivity).
Qed.

(* ================================================================== *)
(** ** [export_document]: replies that are not labelled as binary *)

(** X16. When the reply to an export is 2xx and its content type does not
    begin with [application/] (as for a [text/plain] or [text/html] body),
    the executor decodes it as JSON instead of returning bytes; so the tool
    returns either the error envelope "Request failed: ..." (the body is no
    JSON) or a success envelope whose [content_length] is 0: the size of
    the body is never reported. *)
Theorem text_export_reports_no_length
    (w : World) (document_id export_format mime_type token : string)
    (tr : Trace) (r : Response) :
  dict_get mime_types export_format = Some mime_type ->
  get_access_token w = Ok token ->
  transport w
    (executor_called tr "GET"
       (DRIVE_API_BASE ++ "/files/" ++ document_id ++ "/export") None
       [("params", VDict [("mimeType", VStr mime_type)])])
    (sent_request token "GET"
       (DRIVE_API_BASE ++ "/files/" ++ document_id ++ "/export") None
       [("params", VDict [("mimeType", VStr mime_type)])]) = Responds r ->
  is_success r = true ->
  String.prefix "application/"
    (headers_get (headers r) "content-type" "") = false ->
  (forall v, json r = inl v -> is_bytes v = false) ->
  exists env tr1,
    export_document w document_id export_format tr = (Ok env, tr1) /\
    ((has_error env = false /\
      dict_get env "content_length" = Some (VInt 0))
     \/
     (exists cls msg,
        json r = inr (cls, msg) /\
        dict_get env "error" = Some (VStr ("Request failed: " ++ msg)))).
Proof.
  intros Hfmt Htok Hres Hok Hct Hjson.
  unfold export_document. rewrite Hfmt. unfold try_except.
  destruct (json r) as [v | [cls msg]] eqn:Hjs.
  - pose proof (executor_json w "GET" _ None _ tr token Htok r v
                  eq_refl Hres Hok Hct Hjs) as Hrun.
    rewrite (bind_ok _ _ _ _ _ Hrun).
    specialize (Hjson v eq_refl).
    do 2 eexists. split; [reflexivity |]. left. split; [reflexivity |].
    destruct v; try discriminate Hjson; reflexivity.
  - pose proof (executor_undecodable w "GET" _ None _ tr token Htok r cls msg
                  eq_refl Hres Hok Hct Hjs) as Hrun.
    rewrite (bind_raise _ _ _ _ _ Hrun).
    do 2 eexists. split; [reflexivity |]. right.
    exists cls, msg. split; reflexivity.
Qed.

Lemma text_export_reports_no_length_witness :
  exists env t,
    export_document (configured_world (always (Responds text_reply)))
      "doc-1" "txt" [] = (Ok env, t) /\
    dict_get env "error" =
      Some (VStr "Request failed: Expecting value: line 1 column 1 (char 0)").
Proof.
  destruct (text_export_reports_no_length
              (configured_world (always (Responds text_reply)))
              "doc-1" "txt" "text/plain" "ya29.token" [] text_reply
              eq_refl eq_refl eq_refl eq_refl eq_refl
              ltac:(intros v H; discriminate H))
    as (env & t & Hrun & _).
  exists env, t. split; [exact Hrun |].
  inversion Hrun. reflexivity.
Defined.

(* ================================================================== *)
(** ** The only local checks *)

Lemma supplied_styles_nil (bold italic underline : option bool) :
  supplied_styles bold italic underline = [] <->
  bold = None /\ italic = None /\ underline = None.
Proof.
  split.
  - destruct bold, italic, underline; cbn; intros H;
      try discriminate H; repeat split.
  - intros (-> & -> & ->). reflexivity.
Qed.

(** X17. A tool answers without calling the executor in two cases only:
    [format_text] with no style option, and [export_document] with a
    format that is no key of the table.  Nothing else is checked locally:
    every other invocation, whatever its ids, indexes, texts and counts,
    calls the executor. *)
Theorem local_checks_are_two (w : World) (c : ToolCall) (tr : Trace) :
  executor_calls (snd (invoke w c tr)) = executor_calls tr <->
  (exists document_id start_index end_index,
     c = FormatText document_id start_index end_index None None None) \/
  (exists document_id export_format,
     c = ExportDocument document_id export_format /\
     dict_get mime_types export_format = None).
Proof.
  destruct (invoke_log w c tr) as (evs & Hsnd & Hlog).
  rewrite Hsnd, executor_calls_app. unfold tool_log in Hlog.
  assert (Hcalls : first_request c = None <-> executor_calls evs = 0%nat).
  { destruct (first_request c) as [[[method url] kwargs] |].
    - destruct Hlog as [-> | (title & url' & _ & ->)].
      + destruct (executor_log_counts w method url None kwargs) as [He _].
        rewrite He. split; discriminate.
      + rewrite executor_calls_app.
        destruct (executor_log_counts w method url None kwargs) as [He _].
        rewrite He. split; [discriminate | lia].
    - subst evs. split; reflexivity. }
  assert (Hnone : first_request c = None <->
            (exists document_id start_index end_index,
               c = FormatText document_id start_index end_index None None None)
            \/
            (exists document_id export_format,
               c = ExportDocument document_id export_format /\
               dict_get mime_types export_format = None)).
  { destruct c; cbn [first_request];
      try (split; [discriminate
                  | intros [(? & ? & ? & H) | (? & ? & H & _)];
                    discriminate H]).
    - destruct (supplied_styles bold italic underline) as [| s styles] eqn:Hs.
      + apply supplied_styles_nil in Hs. destruct Hs as (-> & -> & ->).
        split; [intros _; left; eauto | reflexivity].
      + split; [discriminate |].
        intros [(? & ? & ? & H) | (? & ? & H & _)]; [| discriminate H].
        inversion H; subst. cbn in Hs. discriminate Hs.
    - destruct (dict_get mime_types export_format) as [m |] eqn:Hfmt.
      + split; [discriminate |].
        intros [(? & ? & ? & H) | (? & ? & H & Hn)]; [discriminate H |].
        inversion H; subst. congruence.
      + split; [intros _; right; eauto | reflexivity]. }
  rewrite <- Hnone, Hcalls. lia.
Qed.
